(** * Role-based permission classes of the claims API

    A shallow embedding of [backend/claims/permissions.py]: the role
    groups, the role resolver [_get_role] and the ten permission classes,
    followed by the properties the specification states about them.

    The Python code is duck-typed: it reads attributes off whatever
    request, user and target object it is handed, and two of its lines
    ([getattr] with a default, [hasattr]) exist only to keep a missing
    attribute from raising.  The embedding therefore keeps objects as
    attribute dictionaries and attribute access as a fallible operation,
    so that "returns a boolean and never raises" is a statement one can
    prove rather than a consequence of typing. *)

From stdpp Require Import base strings gmap list.

(** ** Python values *)

(** The values the module touches: [None], booleans, strings and objects.
    An object carries the identity of the entity it stands for (the
    primary key of a model instance) and its attribute dictionary. *)
#[warnings="-register-all"] Inductive pyval : Type :=
| PNone
| PBool (b : bool)
| PStr (s : string)
| PObj (ident : nat) (attrs : gmap string pyval).

(** Truth value of a value in a condition ([if x], [x and y], [not x]). *)
Definition truthy (v : pyval) : bool :=
  match v with
  | PNone => false
  | PBool b => b
  | PStr s => negb (String.eqb s "")
  | PObj _ _ => true
  end.

(** [x == y].  Strings and booleans compare by value; model instances
    compare by identity (primary key), whatever else they carry. *)
Definition py_eq (x y : pyval) : bool :=
  match x, y with
  | PNone, PNone => true
  | PBool a, PBool b => Bool.eqb a b
  | PStr a, PStr b => String.eqb a b
  | PObj i _, PObj j _ => Nat.eqb i j
  | _, _ => false
  end.

(** [x in t] for a tuple [t]. *)
Definition py_in (x : pyval) (t : list pyval) : bool :=
  existsb (py_eq x) t.

(** ** Outcomes: a value, or a raised exception *)

Inductive exn : Type :=
| AttributeError (name : string).

Inductive result (A : Type) : Type :=
| Ok (a : A)
| Raise (e : exn).

Arguments Ok {A} a.
Arguments Raise {A} e.

#[global] Instance result_ret : MRet result := fun _ a => Ok a.
#[global] Instance result_bind : MBind result := fun _ _ f m =>
  match m with
  | Ok a => f a
  | Raise e => Raise e
  end.

(** ** Attribute access *)

Definition lookup_attr (v : pyval) (name : string) : option pyval :=
  match v with
  | PObj _ attrs => attrs !! name
  | _ => None
  end.

(** [v.name] *)
Definition getattr (v : pyval) (name : string) : result pyval :=
  match lookup_attr v name with
  | Some x => Ok x
  | None => Raise (AttributeError name)
  end.

(** [getattr(v, name, dflt)] *)
Definition getattr_default (v : pyval) (name : string) (dflt : pyval) : pyval :=
  match lookup_attr v name with
  | Some x => x
  | None => dflt
  end.

(** [hasattr(v, name)] *)
Definition hasattr (v : pyval) (name : string) : bool :=
  match lookup_attr v name with
  | Some _ => true
  | None => false
  end.

(** ** Expressions

    Python evaluates operands left to right and [and] skips its second
    operand when the first is falsy; the combinators below keep both. *)

Definition val (v : pyval) : result pyval := Ok v.

Definition attr (e : result pyval) (name : string) : result pyval :=
  v ← e; getattr v name.

Notation "e ∙ name" := (attr e name) (at level 19, left associativity).

Definition call (f : pyval → result pyval) (e : result pyval) : result pyval :=
  v ← e; f v.

Definition and_ (e1 e2 : result pyval) : result pyval :=
  x ← e1; if truthy x then e2 else mret x.

Definition not_ (e : result pyval) : result pyval :=
  x ← e; mret (PBool (negb (truthy x))).

Definition eq_ (e1 e2 : result pyval) : result pyval :=
  x ← e1; y ← e2; mret (PBool (py_eq x y)).

Definition in_ (e : result pyval) (t : list pyval) : result pyval :=
  x ← e; mret (PBool (py_in x t)).

Definition hasattr_ (e : result pyval) (name : string) : result pyval :=
  x ← e; mret (PBool (hasattr x name)).

(** [if c: return t] followed by the rest of the body [e]. *)
Definition if_ (c t e : result pyval) : result pyval :=
  x ← c; if truthy x then t else e.

Definition True_ : result pyval := Ok (PBool true).
Definition False_ : result pyval := Ok (PBool false).

(** ** helpers *)

Definition STAFF_ROLES : list pyval :=
  [PStr "admin"; PStr "manager"; PStr "adjuster"; PStr "reviewer"; PStr "agent"].
Definition MANAGEMENT_ROLES : list pyval :=
  [PStr "admin"; PStr "manager"].
Definition PROCESSING_ROLES : list pyval :=
  [PStr "admin"; PStr "manager"; PStr "adjuster"].
Definition OVERSIGHT_ROLES : list pyval :=
  [PStr "admin"; PStr "manager"; PStr "reviewer"].

(** [rest_framework.permissions.SAFE_METHODS], the read-only verbs. *)
Definition SAFE_METHODS : list pyval :=
  [PStr "GET"; PStr "HEAD"; PStr "OPTIONS"].

(** Get the role from user's profile, defaulting to 'customer'. *)
Definition _get_role (user : pyval) : result pyval :=
  let profile := getattr_default user "profile" PNone in
  if truthy profile then val profile ∙ "role" else val (PStr "customer").

(** ** permission classes *)

(** The interface of [rest_framework.permissions.BasePermission]: a
    request-level check and an object-level check. *)
Record BasePermission : Type := {
  has_permission : pyval → pyval → result pyval;
  has_object_permission : pyval → pyval → pyval → result pyval
}.

(** What a class inherits for a method it does not override. *)
Definition base_has_permission (request view : pyval) : result pyval := True_.
Definition base_has_object_permission (request view obj : pyval) : result pyval := True_.

(** Only administrators can access. *)
Definition IsAdmin : BasePermission := {|
  has_permission request view :=
    and_ (val request ∙ "user" ∙ "is_authenticated")
         (eq_ (call _get_role (val request ∙ "user")) (val (PStr "admin")));
  has_object_permission := base_has_object_permission
|}.

(** Admin and manager roles can access. *)
Definition IsManagement : BasePermission := {|
  has_permission request view :=
    and_ (val request ∙ "user" ∙ "is_authenticated")
         (in_ (call _get_role (val request ∙ "user")) MANAGEMENT_ROLES);
  has_object_permission := base_has_object_permission
|}.

(** Any internal role (admin, manager, adjuster, reviewer, agent). *)
Definition IsStaff : BasePermission := {|
  has_permission request view :=
    and_ (val request ∙ "user" ∙ "is_authenticated")
         (in_ (call _get_role (val request ∙ "user")) STAFF_ROLES);
  has_object_permission := base_has_object_permission
|}.

(** Staff gets full access; customers get read-only. *)
Definition IsStaffOrReadOnly : BasePermission := {|
  has_permission request view :=
    if_ (not_ (val request ∙ "user" ∙ "is_authenticated")) False_ (
    if_ (in_ (val request ∙ "method") SAFE_METHODS) True_ (
    in_ (call _get_role (val request ∙ "user")) STAFF_ROLES));
  has_object_permission := base_has_object_permission
|}.

(** Object owner or any staff role can access. *)
Definition IsOwnerOrStaff : BasePermission := {|
  has_permission := base_has_permission;
  has_object_permission request view obj :=
    role ← call _get_role (val request ∙ "user");
    if_ (in_ (val role) STAFF_ROLES) True_ (
    if_ (and_ (hasattr_ (val obj) "claimant")
              (eq_ (val obj ∙ "claimant") (val request ∙ "user"))) True_ (
    if_ (and_ (hasattr_ (val obj) "holder")
              (eq_ (val obj ∙ "holder") (val request ∙ "user"))) True_ (
    if_ (and_ (hasattr_ (val obj) "user")
              (eq_ (val obj ∙ "user") (val request ∙ "user"))) True_ (
    False_))))
|}.

(** Admin, manager, and adjuster can process / approve / deny claims. *)
Definition CanProcessClaims : BasePermission := {|
  has_permission request view :=
    and_ (val request ∙ "user" ∙ "is_authenticated")
         (in_ (call _get_role (val request ∙ "user")) PROCESSING_ROLES);
  has_object_permission := base_has_object_permission
|}.

(** Admin and manager can assign claims to staff. *)
Definition CanAssignClaims : BasePermission := {|
  has_permission request view :=
    and_ (val request ∙ "user" ∙ "is_authenticated")
         (in_ (call _get_role (val request ∙ "user")) MANAGEMENT_ROLES);
  has_object_permission := base_has_object_permission
|}.

(** Admin, manager, adjuster, reviewer can view; admin/manager/adjuster
    can resolve. *)
Definition CanManageFraudAlerts : BasePermission := {|
  has_permission request view :=
    if_ (not_ (val request ∙ "user" ∙ "is_authenticated")) False_ (
    role ← call _get_role (val request ∙ "user");
    if_ (in_ (val request ∙ "method") SAFE_METHODS)
        (in_ (val role) [PStr "admin"; PStr "manager"; PStr "adjuster"; PStr "reviewer"])
        (in_ (val role) [PStr "admin"; PStr "manager"; PStr "adjuster"]));
  has_object_permission := base_has_object_permission
|}.

(** Admin, manager, reviewer can view analytics and reports. *)
Definition CanViewAnalytics : BasePermission := {|
  has_permission request view :=
    and_ (val request ∙ "user" ∙ "is_authenticated")
         (in_ (call _get_role (val request ∙ "user")) OVERSIGHT_ROLES);
  has_object_permission := base_has_object_permission
|}.

(** Admin and manager can manage users. *)
Definition CanManageUsers : BasePermission := {|
  has_permission request view :=
    and_ (val request ∙ "user" ∙ "is_authenticated")
         (in_ (call _get_role (val request ∙ "user")) MANAGEMENT_ROLES);
  has_object_permission := base_has_object_permission
|}.

(** ** The named decisions *)

Inductive decision : Type :=
| isAdmin
| isManagement
| isStaff
| isStaffOrReadOnly
| isOwnerOrStaff
| canProcessClaims
| canAssignClaims
| canManageFraudAlerts
| canViewAnalytics
| canManageUsers.

#[global] Instance decision_eq_dec : EqDecision decision.
Proof. solve_decision. Defined.

Definition permission_class (d : decision) : BasePermission :=
  match d with
  | isAdmin => IsAdmin
  | isManagement => IsManagement
  | isStaff => IsStaff
  | isStaffOrReadOnly => IsStaffOrReadOnly
  | isOwnerOrStaff => IsOwnerOrStaff
  | canProcessClaims => CanProcessClaims
  | canAssignClaims => CanAssignClaims
  | canManageFraudAlerts => CanManageFraudAlerts
  | canViewAnalytics => CanViewAnalytics
  | canManageUsers => CanManageUsers
  end.

(** A named decision is the method its class defines: the object-level
    check for [IsOwnerOrStaff], the request-level check for the others. *)
Definition evaluate (d : decision) (request view obj : pyval) : result pyval :=
  match d with
  | isOwnerOrStaff => has_object_permission (permission_class d) request view obj
  | _ => has_permission (permission_class d) request view
  end.

Definition allows (r : result pyval) : Prop := r = Ok (PBool true).
Definition denies (r : result pyval) : Prop := r = Ok (PBool false).

(** ** What a decision is given *)

(** The principal of a request is its [user]. *)
Definition principal_of (request user : pyval) : Prop :=
  getattr request "user" = Ok user.

Definition is_authenticated (user : pyval) (b : bool) : Prop :=
  getattr user "is_authenticated" = Ok (PBool b).

Definition resolved_role (user : pyval) (role : string) : Prop :=
  _get_role user = Ok (PStr role).

(** A principal with no role attribute: the profile is missing, or [None]. *)
Definition no_role (user : pyval) : Prop :=
  lookup_attr user "profile" = None ∨ lookup_attr user "profile" = Some PNone.

(** The operation kind is read off the request's verb. *)
Definition read_only (request : pyval) : Prop :=
  ∃ m, getattr request "method" = Ok (PStr m) ∧ m ∈ ["GET"; "HEAD"; "OPTIONS"].

Definition mutating (request : pyval) : Prop :=
  ∃ m, getattr request "method" = Ok (PStr m) ∧ m ∉ ["GET"; "HEAD"; "OPTIONS"].

(** The target exposes relation [rel] and its value equals the principal. *)
Definition owner_via (obj : pyval) (rel : string) (user : pyval) : Prop :=
  ∃ x, lookup_attr obj rel = Some x ∧ py_eq x user = true.

Definition owner (obj user : pyval) : Prop :=
  ∃ rel, rel ∈ ["claimant"; "holder"; "user"] ∧ owner_via obj rel user.

(** Two values stand for the same principal when nothing compares
    differently against them. *)
Definition same_identity (u1 u2 : pyval) : Prop :=
  ∀ x, py_eq x u1 = py_eq x u2.

(** The same test as a boolean, for stating what a run returns. *)
Definition relation_matches (obj : pyval) (rel : string) (user : pyval) : bool :=
  match lookup_attr obj rel with
  | Some x => py_eq x user
  | None => false
  end.

(** [x] returns true exactly when [P] holds and false exactly when it
    does not. *)
Definition decides (x : result pyval) (P : Prop) : Prop :=
  (allows x ↔ P) ∧ (denies x ↔ ¬ P).

(** The input domain: a request carries a verb and a user; a user carries
    its authentication flag and, optionally, a profile; a profile carries
    a role.  The target object is unconstrained. *)
Definition wf_profile (p : pyval) : bool :=
  match p with
  | PNone => true
  | PObj _ attrs =>
      match attrs !! "role" with
      | Some (PStr _) => true
      | _ => false
      end
  | _ => false
  end.

Definition wf_user (u : pyval) : bool :=
  match u with
  | PObj _ attrs =>
      match attrs !! "is_authenticated" with
      | Some (PBool _) =>
          match attrs !! "profile" with
          | Some p => wf_profile p
          | None => true
          end
      | _ => false
      end
  | _ => false
  end.

Definition wf_request (r : pyval) : bool :=
  match r with
  | PObj _ attrs =>
      match attrs !! "user", attrs !! "method" with
      | Some u, Some (PStr _) => wf_user u
      | _, _ => false
      end
  | _ => false
  end.

(** ** Concrete inputs *)

Definition profile_with (role : string) : pyval :=
  PObj 0 {[ "role" := PStr role ]}.

(** A user without a profile, and one whose profile carries a role. *)
Definition anonymous_like (ident : nat) (auth : bool) : pyval :=
  PObj ident {[ "is_authenticated" := PBool auth ]}.

Definition user_with (ident : nat) (auth : bool) (role : string) : pyval :=
  PObj ident (<[ "profile" := profile_with role ]> {[ "is_authenticated" := PBool auth ]}).

Definition request_of (user : pyval) (method : string) : pyval :=
  PObj 0 (<[ "user" := user ]> {[ "method" := PStr method ]}).

(** A claim-like object, a policy-like object, a user-linked record, and
    an object with no ownership relation. *)
Definition claim_of (claimant : pyval) : pyval := PObj 100 {[ "claimant" := claimant ]}.
Definition policy_of (holder : pyval) : pyval := PObj 101 {[ "holder" := holder ]}.
Definition record_of (user : pyval) : pyval := PObj 102 {[ "user" := user ]}.
Definition unowned : pyval := PObj 103 ∅.

(** ** The same code over a store

    A second transcription of the module, for what can only be said
    about a program that lives in a mutable world.  Python objects are
    references into a store; reading an attribute reads the store, an
    assignment [v.name = x] would write it.  A run takes the store it
    starts in and returns, besides its outcome, the store it leaves
    behind. *)

Module Heap.

Definition loc : Type := nat.

(** What a variable or an attribute holds: an immutable value or a
    reference to an object. *)
Inductive hval : Type :=
| HNone
| HBool (b : bool)
| HStr (s : string)
| HRef (l : loc).

(** A stored object: the identity of the entity it stands for and its
    attribute dictionary. *)
Record object : Type := {
  obj_ident : nat;
  obj_attrs : gmap string hval
}.

Abbreviation heap := (gmap loc object).

(** A run: from the store before to an outcome and the store after.  A
    raised exception keeps the store as it was when raised. *)
Definition M (A : Type) : Type := heap → result A * heap.

#[global] Instance M_ret : MRet M := fun _ a h => (Ok a, h).
#[global] Instance M_bind : MBind M := fun _ _ f m h =>
  match m h with
  | (Ok a, h') => f a h'
  | (Raise e, h') => (Raise e, h')
  end.

Definition truthy (v : hval) : bool :=
  match v with
  | HNone => false
  | HBool b => b
  | HStr s => negb (String.eqb s "")
  | HRef _ => true
  end.

(** The attribute [name] of [v] in store [h], if [v] is an object that
    has it. *)
Definition field (h : heap) (v : hval) (name : string) : option hval :=
  match v with
  | HRef l =>
      match h !! l with
      | Some o => obj_attrs o !! name
      | None => None
      end
  | _ => None
  end.

Definition ident (h : heap) (v : hval) : option nat :=
  match v with
  | HRef l => obj_ident <$> h !! l
  | _ => None
  end.

(** [x == y] in store [h]: objects compare by the identity they carry. *)
Definition equal (h : heap) (x y : hval) : bool :=
  match x, y with
  | HNone, HNone => true
  | HBool a, HBool b => Bool.eqb a b
  | HStr a, HStr b => String.eqb a b
  | HRef _, HRef _ =>
      match ident h x, ident h y with
      | Some i, Some j => Nat.eqb i j
      | _, _ => false
      end
  | _, _ => false
  end.

(** [v.name] *)
Definition getattr (v : hval) (name : string) : M hval := fun h =>
  match field h v name with
  | Some x => (Ok x, h)
  | None => (Raise (AttributeError name), h)
  end.

(** [getattr(v, name, dflt)] *)
Definition getattr_default (v : hval) (name : string) (dflt : hval) : M hval := fun h =>
  match field h v name with
  | Some x => (Ok x, h)
  | None => (Ok dflt, h)
  end.

(** [hasattr(v, name)] *)
Definition hasattr (v : hval) (name : string) : M hval := fun h =>
  match field h v name with
  | Some _ => (Ok (HBool true), h)
  | None => (Ok (HBool false), h)
  end.

(** [v.name = x], which no line of the module performs: on an object
    it overwrites the attribute in the store. *)
Definition setattr (v : hval) (name : string) (x : hval) : M hval := fun h =>
  match v with
  | HRef l =>
      match h !! l with
      | Some o =>
          (Ok HNone,
           <[ l := {| obj_ident := obj_ident o;
                      obj_attrs := <[ name := x ]> (obj_attrs o) |} ]> h)
      | None => (Raise (AttributeError name), h)
      end
  | _ => (Raise (AttributeError name), h)
  end.

(** A value computed from the store without changing it. *)
Definition inspect (f : heap → hval) : M hval := fun h => (Ok (f h), h).

Definition val (v : hval) : M hval := mret v.

Definition attr (e : M hval) (name : string) : M hval :=
  v ← e; getattr v name.

Definition call (f : hval → M hval) (e : M hval) : M hval :=
  v ← e; f v.

Definition and_ (e1 e2 : M hval) : M hval :=
  x ← e1; if truthy x then e2 else mret x.

Definition not_ (e : M hval) : M hval :=
  x ← e; mret (HBool (negb (truthy x))).

Definition eq_ (e1 e2 : M hval) : M hval :=
  x ← e1; y ← e2; inspect (fun h => HBool (equal h x y)).

Definition in_ (e : M hval) (t : list hval) : M hval :=
  x ← e; inspect (fun h => HBool (existsb (equal h x) t)).

Definition hasattr_ (e : M hval) (name : string) : M hval :=
  x ← e; hasattr x name.

Definition if_ (c t e : M hval) : M hval :=
  x ← c; if truthy x then t else e.

Definition True_ : M hval := mret (HBool true).
Definition False_ : M hval := mret (HBool false).

Definition STAFF_ROLES : list hval :=
  [HStr "admin"; HStr "manager"; HStr "adjuster"; HStr "reviewer"; HStr "agent"].
Definition MANAGEMENT_ROLES : list hval :=
  [HStr "admin"; HStr "manager"].
Definition PROCESSING_ROLES : list hval :=
  [HStr "admin"; HStr "manager"; HStr "adjuster"].
Definition OVERSIGHT_ROLES : list hval :=
  [HStr "admin"; HStr "manager"; HStr "reviewer"].
Definition SAFE_METHODS : list hval :=
  [HStr "GET"; HStr "HEAD"; HStr "OPTIONS"].

(** Get the role from user's profile, defaulting to 'customer'. *)
Definition _get_role (user : hval) : M hval :=
  profile ← getattr_default user "profile" HNone;
  if truthy profile then attr (val profile) "role" else val (HStr "customer").

Record BasePermission : Type := {
  has_permission : hval → hval → M hval;
  has_object_permission : hval → hval → hval → M hval
}.

Definition base_has_permission (request view : hval) : M hval := True_.
Definition base_has_object_permission (request view obj : hval) : M hval := True_.

(** Only administrators can access. *)
Definition IsAdmin : BasePermission := {|
  has_permission request view :=
    and_ (attr (attr (val request) "user") "is_authenticated")
         (eq_ (call _get_role (attr (val request) "user")) (val (HStr "admin")));
  has_object_permission := base_has_object_permission
|}.

(** Admin and manager roles can access. *)
Definition IsManagement : BasePermission := {|
  has_permission request view :=
    and_ (attr (attr (val request) "user") "is_authenticated")
         (in_ (call _get_role (attr (val request) "user")) MANAGEMENT_ROLES);
  has_object_permission := base_has_object_permission
|}.

(** Any internal role (admin, manager, adjuster, reviewer, agent). *)
Definition IsStaff : BasePermission := {|
  has_permission request view :=
    and_ (attr (attr (val request) "user") "is_authenticated")
         (in_ (call _get_role (attr (val request) "user")) STAFF_ROLES);
  has_object_permission := base_has_object_permission
|}.

(** Staff gets full access; customers get read-only. *)
Definition IsStaffOrReadOnly : BasePermission := {|
  has_permission request view :=
    if_ (not_ (attr (attr (val request) "user") "is_authenticated")) False_ (
    if_ (in_ (attr (val request) "method") SAFE_METHODS) True_ (
    in_ (call _get_role (attr (val request) "user")) STAFF_ROLES));
  has_object_permission := base_has_object_permission
|}.

(** Object owner or any staff role can access. *)
Definition IsOwnerOrStaff : BasePermission := {|
  has_permission := base_has_permission;
  has_object_permission request view obj :=
    role ← call _get_role (attr (val request) "user");
    if_ (in_ (val role) STAFF_ROLES) True_ (
    if_ (and_ (hasattr_ (val obj) "claimant")
              (eq_ (attr (val obj) "claimant") (attr (val request) "user"))) True_ (
    if_ (and_ (hasattr_ (val obj) "holder")
              (eq_ (attr (val obj) "holder") (attr (val request) "user"))) True_ (
    if_ (and_ (hasattr_ (val obj) "user")
              (eq_ (attr (val obj) "user") (attr (val request) "user"))) True_ (
    False_))))
|}.

(** Admin, manager, and adjuster can process / approve / deny claims. *)
Definition CanProcessClaims : BasePermission := {|
  has_permission request view :=
    and_ (attr (attr (val request) "user") "is_authenticated")
         (in_ (call _get_role (attr (val request) "user")) PROCESSING_ROLES);
  has_object_permission := base_has_object_permission
|}.

(** Admin and manager can assign claims to staff. *)
Definition CanAssignClaims : BasePermission := {|
  has_permission request view :=
    and_ (attr (attr (val request) "user") "is_authenticated")
         (in_ (call _get_role (attr (val request) "user")) MANAGEMENT_ROLES);
  has_object_permission := base_has_object_permission
|}.

(** Admin, manager, adjuster, reviewer can view; admin/manager/adjuster
    can resolve. *)
Definition CanManageFraudAlerts : BasePermission := {|
  has_permission request view :=
    if_ (not_ (attr (attr (val request) "user") "is_authenticated")) False_ (
    role ← call _get_role (attr (val request) "user");
    if_ (in_ (attr (val request) "method") SAFE_METHODS)
        (in_ (val role) [HStr "admin"; HStr "manager"; HStr "adjuster"; HStr "reviewer"])
        (in_ (val role) [HStr "admin"; HStr "manager"; HStr "adjuster"]));
  has_object_permission := base_has_object_permission
|}.

(** Admin, manager, reviewer can view analytics and reports. *)
Definition CanViewAnalytics : BasePermission := {|
  has_permission request view :=
    and_ (attr (attr (val request) "user") "is_authenticated")
         (in_ (call _get_role (attr (val request) "user")) OVERSIGHT_ROLES);
  has_object_permission := base_has_object_permission
|}.

(** Admin and manager can manage users. *)
Definition CanManageUsers : BasePermission := {|
  has_permission request view :=
    and_ (attr (attr (val request) "user") "is_authenticated")
         (in_ (call _get_role (attr (val request) "user")) MANAGEMENT_ROLES);
  has_object_permission := base_has_object_permission
|}.

Definition permission_class (d : decision) : BasePermission :=
  match d with
  | isAdmin => IsAdmin
  | isManagement => IsManagement
  | isStaff => IsStaff
  | isStaffOrReadOnly => IsStaffOrReadOnly
  | isOwnerOrStaff => IsOwnerOrStaff
  | canProcessClaims => CanProcessClaims
  | canAssignClaims => CanAssignClaims
  | canManageFraudAlerts => CanManageFraudAlerts
  | canViewAnalytics => CanViewAnalytics
  | canManageUsers => CanManageUsers
  end.

Definition evaluate (d : decision) (request view obj : hval) : M hval :=
  match d with
  | isOwnerOrStaff => has_object_permission (permission_class d) request view obj
  | _ => has_permission (permission_class d) request view
  end.

(** The outcome of a run started in store [h]. *)
Definition outcome {A : Type} (m : M A) (h : heap) : result A := (m h).1.

(** A run that leaves every store as it found it. *)
Definition preserves {A : Type} (m : M A) : Prop :=
  ∀ h, (m h).2 = h.

(** The objects a decision can reach from its explicit inputs: the
    request, its user, the profile of that user, the target, and the
    owners the target names. *)
Definition ref_of (v : hval) : list loc :=
  match v with
  | HRef l => [l]
  | _ => []
  end.

Definition footprint (h : heap) (request obj : hval) : list loc :=
  let user := default HNone (field h request "user") in
  let profile := default HNone (field h user "profile") in
  ref_of request ++ ref_of user ++ ref_of profile ++ ref_of obj
  ++ ref_of (default HNone (field h obj "claimant"))
  ++ ref_of (default HNone (field h obj "holder"))
  ++ ref_of (default HNone (field h obj "user")).

(** Two stores that hold the same object at each location of [L]. *)
Definition agree (L : list loc) (h1 h2 : heap) : Prop :=
  ∀ l, l ∈ L → h1 !! l = h2 !! l.

(** A concrete store.  The request (0) names its user (1), whose profile
    (2) points back at the user; the claim (3) names as claimant another
    object (4) that stands for the same user; a view sits at 9. *)
Definition store0 : heap :=
  {[ 0 := {| obj_ident := 0;
             obj_attrs := {[ "user" := HRef 1; "method" := HStr "POST" ]} |};
     1 := {| obj_ident := 8;
             obj_attrs := {[ "is_authenticated" := HBool true; "profile" := HRef 2 ]} |};
     2 := {| obj_ident := 8;
             obj_attrs := {[ "role" := HStr "customer"; "user" := HRef 1 ]} |};
     3 := {| obj_ident := 40;
             obj_attrs := {[ "claimant" := HRef 4 ]} |};
     4 := {| obj_ident := 8;
             obj_attrs := {[ "is_authenticated" := HBool true ]} |} ]}.

(** The same store with a view object added and a further row changed. *)
Definition store1 : heap :=
  <[ 9 := {| obj_ident := 0; obj_attrs := {[ "action" := HStr "update" ]} |} ]>
    (<[ 5 := {| obj_ident := 41; obj_attrs := {[ "claimant" := HRef 1 ]} |} ]> store0).

End Heap.

(** ** Reading values off a store

    What the first transcription calls a value is what a store holds
    behind a reference, unfolded to a given depth. *)

Fixpoint reify (n : nat) (h : Heap.heap) (v : Heap.hval) : pyval :=
  match v with
  | Heap.HNone => PNone
  | Heap.HBool b => PBool b
  | Heap.HStr s => PStr s
  | Heap.HRef l =>
      match h !! l with
      | Some o =>
          PObj (Heap.obj_ident o)
               (match n with
                | O => ∅
                | S n' => reify n' h <$> Heap.obj_attrs o
                end)
      | None => PNone
      end
  end.

(** A reference is allocated when the store holds an object for it; a
    store is closed when every reference it holds is. *)
Definition allocated (h : Heap.heap) (v : Heap.hval) : Prop :=
  match v with
  | Heap.HRef l => is_Some (h !! l)
  | _ => True
  end.

Definition closed (h : Heap.heap) : Prop :=
  ∀ l o name x, h !! l = Some o → Heap.obj_attrs o !! name = Some x → allocated h x.

(** A run over the store and a run over values that end alike: the same
    exception, or the value that the returned reference unfolds to at
    depth [n]. *)
Definition simulates (h : Heap.heap) (n : nat) (m : Heap.M Heap.hval) (p : result pyval) : Prop :=
  match Heap.outcome m h with
  | Ok v => allocated h v ∧ p = Ok (reify n h v)
  | Raise e => p = Raise e
  end.

(** ** Proof automation *)

Ltac observations :=
  unfold allows, denies, principal_of, is_authenticated, resolved_role in *.

Ltac step := cbn [mbind mret result_bind result_ret truthy negb].

(** Unfold a decision down to attribute lookups and replay the lookups
    whose results are among the hypotheses. *)
Ltac run :=
  observations;
  unfold evaluate, permission_class, has_permission, has_object_permission,
    IsAdmin, IsManagement, IsStaff, IsStaffOrReadOnly, IsOwnerOrStaff,
    CanProcessClaims, CanAssignClaims, CanManageFraudAlerts, CanViewAnalytics,
    CanManageUsers, base_has_permission, base_has_object_permission,
    and_, not_, eq_, in_, if_, hasattr_, call, attr, val, True_, False_;
  step;
  repeat match goal with
         | H : ?x = Ok _ |- context [?x] => rewrite H; step
         end.

Ltac role_cases :=
  repeat match goal with
         | |- context [String.eqb ?s ?c] => destruct (String.eqb s c)
         end.

(** Split on the value a role test is applied to, then on the tests. *)
Ltac role_tests :=
  repeat match goal with
         | |- context [py_in ?rv _] => is_var rv; destruct rv; cbn
         | |- context [py_eq ?rv (PStr _)] => is_var rv; destruct rv; cbn
         end;
  role_cases.

(** Follow a run attribute by attribute, splitting on every lookup and
    every truth test it performs. *)
Ltac eval_cases :=
  repeat (step;
          match goal with
          | |- context [getattr ?v ?n] => destruct (getattr v n) as [?x|?e] eqn:?
          | |- context [_get_role ?v] => destruct (_get_role v) as [?rv|?e] eqn:?
          | |- context [truthy ?a] => destruct (truthy a) eqn:?
          end);
  step.

(** Close what is left of a run once all its cases are laid out. *)
Ltac close_run :=
  try done; try (by intros [= ->]); role_tests; try done; try (by intros [= ->]).

(** * Properties *)

(** ** Running the code on concrete inputs *)

Example get_role_profile : _get_role (user_with 1 true "adjuster") = Ok (PStr "adjuster").
Proof. reflexivity. Qed.

Example get_role_default : _get_role (anonymous_like 1 true) = Ok (PStr "customer").
Proof. reflexivity. Qed.

Example owner_customer_allowed :
  evaluate isOwnerOrStaff (request_of (user_with 1 true "customer") "PUT") PNone
    (claim_of (user_with 1 true "customer")) = Ok (PBool true).
Proof. reflexivity. Qed.

Example other_customer_denied :
  evaluate isOwnerOrStaff (request_of (user_with 2 true "customer") "PUT") PNone
    (claim_of (user_with 1 true "customer")) = Ok (PBool false).
Proof. reflexivity. Qed.

Example other_agent_allowed :
  evaluate isOwnerOrStaff (request_of (user_with 2 true "agent") "PUT") PNone
    (claim_of (user_with 1 true "customer")) = Ok (PBool true).
Proof. reflexivity. Qed.

Example fraud_reviewer_read :
  evaluate canManageFraudAlerts (request_of (user_with 2 true "reviewer") "GET") PNone PNone
  = Ok (PBool true).
Proof. reflexivity. Qed.

Example fraud_reviewer_write :
  evaluate canManageFraudAlerts (request_of (user_with 2 true "reviewer") "POST") PNone PNone
  = Ok (PBool false).
Proof. reflexivity. Qed.

(** Outside the input domain the code does raise: a request with no user. *)
Example no_user_raises :
  evaluate isAdmin (PObj 0 ∅) PNone PNone = Raise (AttributeError "user").
Proof. reflexivity. Qed.

(** ** Evaluation lemmas *)

Lemma py_in_names (r : string) (l : list string) :
  py_in (PStr r) (PStr <$> l) = bool_decide (r ∈ l).
Proof.
  induction l as [|s l IH]; cbn.
  - reflexivity.
  - fold (py_in (PStr r) (PStr <$> l)). rewrite IH.
    destruct (String.eqb_spec r s) as [->|Hne]; cbn.
    + symmetry. apply bool_decide_eq_true. left.
    + apply bool_decide_ext. rewrite elem_of_cons. intuition congruence.
Qed.

Lemma decides_outcome (x : result pyval) (b : bool) (P : Prop) :
  x = Ok (PBool b) → (b = true ↔ P) → decides x P.
Proof.
  intros -> HP. unfold decides, allows, denies. rewrite <- HP.
  destruct b; split; split; intros; congruence.
Qed.

Lemma decides_bool (x : result pyval) (P : Prop) `{!Decision P} :
  x = Ok (PBool (bool_decide P)) → decides x P.
Proof. intros Hx. apply (decides_outcome x _ P Hx), bool_decide_eq_true. Qed.

Lemma owner_via_matches (obj : pyval) (rel : string) (user : pyval) :
  owner_via obj rel user ↔ relation_matches obj rel user = true.
Proof.
  unfold owner_via, relation_matches. split.
  - intros (x & -> & Hx). exact Hx.
  - destruct (lookup_attr obj rel) as [x|]; [eauto | done].
Qed.

Lemma owner_matches (obj user : pyval) :
  owner obj user ↔
  relation_matches obj "claimant" user || relation_matches obj "holder" user
    || relation_matches obj "user" user = true.
Proof.
  unfold owner. rewrite !orb_true_iff, <- !owner_via_matches. split.
  - intros (rel & Hrel & Hvia).
    rewrite !elem_of_cons, elem_of_nil in Hrel.
    destruct Hrel as [-> | [-> | [-> | []]]]; auto.
  - intros [[H | H] | H]; eexists; (split; [|exact H]); set_solver.
Qed.

Section Outcomes.
Variables (request view obj user : pyval).
Hypothesis Huser : principal_of request user.

Lemma unauthenticated_outcome (d : decision) :
  is_authenticated user false → d ≠ isOwnerOrStaff →
  evaluate d request view obj = Ok (PBool false).
Proof. intros Ha Hd. destruct d; try done; run; reflexivity. Qed.

Lemma isAdmin_outcome (r : string) :
  is_authenticated user true → resolved_role user r →
  evaluate isAdmin request view obj = Ok (PBool (bool_decide (r = "admin"))).
Proof.
  intros Ha Hr. run. cbn. do 2 f_equal.
  destruct (String.eqb_spec r "admin") as [->|Hne]; symmetry.
  - by apply bool_decide_eq_true.
  - by apply bool_decide_eq_false.
Qed.

(** The seven checks of the form [authenticated and role in GROUP]. *)
Lemma guarded_membership (b : bool) (r : string) (group : list string) :
  is_authenticated user b → resolved_role user r →
  and_ (val request ∙ "user" ∙ "is_authenticated")
       (in_ (call _get_role (val request ∙ "user")) (PStr <$> group))
  = Ok (PBool (b && bool_decide (r ∈ group))).
Proof.
  intros Ha Hr. run. destruct b; cbn; [|reflexivity].
  by rewrite py_in_names.
Qed.

Lemma isManagement_outcome (r : string) :
  is_authenticated user true → resolved_role user r →
  evaluate isManagement request view obj
  = Ok (PBool (bool_decide (r ∈ ["admin"; "manager"]))).
Proof. intros Ha Hr. exact (guarded_membership true r ["admin"; "manager"] Ha Hr). Qed.

Lemma isStaff_outcome (r : string) :
  is_authenticated user true → resolved_role user r →
  evaluate isStaff request view obj
  = Ok (PBool (bool_decide (r ∈ ["admin"; "manager"; "adjuster"; "reviewer"; "agent"]))).
Proof. intros Ha Hr. exact (guarded_membership true r ["admin"; "manager"; "adjuster"; "reviewer"; "agent"] Ha Hr). Qed.

Lemma canProcessClaims_outcome (r : string) :
  is_authenticated user true → resolved_role user r →
  evaluate canProcessClaims request view obj
  = Ok (PBool (bool_decide (r ∈ ["admin"; "manager"; "adjuster"]))).
Proof. intros Ha Hr. exact (guarded_membership true r ["admin"; "manager"; "adjuster"] Ha Hr). Qed.

Lemma canAssignClaims_outcome (r : string) :
  is_authenticated user true → resolved_role user r →
  evaluate canAssignClaims request view obj
  = Ok (PBool (bool_decide (r ∈ ["admin"; "manager"]))).
Proof. intros Ha Hr. exact (guarded_membership true r ["admin"; "manager"] Ha Hr). Qed.

Lemma canViewAnalytics_outcome (r : string) :
  is_authenticated user true → resolved_role user r →
  evaluate canViewAnalytics request view obj
  = Ok (PBool (bool_decide (r ∈ ["admin"; "manager"; "reviewer"]))).
Proof. intros Ha Hr. exact (guarded_membership true r ["admin"; "manager"; "reviewer"] Ha Hr). Qed.

Lemma canManageUsers_outcome (r : string) :
  is_authenticated user true → resolved_role user r →
  evaluate canManageUsers request view obj
  = Ok (PBool (bool_decide (r ∈ ["admin"; "manager"]))).
Proof. intros Ha Hr. exact (guarded_membership true r ["admin"; "manager"] Ha Hr). Qed.

(** The verb test of the two operation-sensitive checks. *)
Lemma safe_method_test (m : string) :
  py_in (PStr m) SAFE_METHODS = bool_decide (m ∈ ["GET"; "HEAD"; "OPTIONS"]).
Proof. exact (py_in_names m ["GET"; "HEAD"; "OPTIONS"]). Qed.

Lemma staff_role_test (r : string) :
  py_in (PStr r) STAFF_ROLES
  = bool_decide (r ∈ ["admin"; "manager"; "adjuster"; "reviewer"; "agent"]).
Proof. exact (py_in_names r ["admin"; "manager"; "adjuster"; "reviewer"; "agent"]). Qed.

Lemma isStaffOrReadOnly_read :
  is_authenticated user true → read_only request →
  evaluate isStaffOrReadOnly request view obj = Ok (PBool true).
Proof.
  intros Ha (m & Hm & Hin). run.
  by rewrite safe_method_test, bool_decide_eq_true_2.
Qed.

Lemma isStaffOrReadOnly_write (r : string) :
  is_authenticated user true → resolved_role user r → mutating request →
  evaluate isStaffOrReadOnly request view obj
  = Ok (PBool (bool_decide (r ∈ ["admin"; "manager"; "adjuster"; "reviewer"; "agent"]))).
Proof.
  intros Ha Hr (m & Hm & Hin). run.
  rewrite safe_method_test, bool_decide_eq_false_2 by done. step.
  by rewrite staff_role_test.
Qed.

Lemma canManageFraudAlerts_read (r : string) :
  is_authenticated user true → resolved_role user r → read_only request →
  evaluate canManageFraudAlerts request view obj
  = Ok (PBool (bool_decide (r ∈ ["admin"; "manager"; "adjuster"; "reviewer"]))).
Proof.
  intros Ha Hr (m & Hm & Hin). run.
  rewrite safe_method_test, bool_decide_eq_true_2 by done. step.
  by rewrite <- (py_in_names r ["admin"; "manager"; "adjuster"; "reviewer"]).
Qed.

Lemma canManageFraudAlerts_write (r : string) :
  is_authenticated user true → resolved_role user r → mutating request →
  evaluate canManageFraudAlerts request view obj
  = Ok (PBool (bool_decide (r ∈ ["admin"; "manager"; "adjuster"]))).
Proof.
  intros Ha Hr (m & Hm & Hin). run.
  rewrite safe_method_test, bool_decide_eq_false_2 by done. step.
  by rewrite <- (py_in_names r ["admin"; "manager"; "adjuster"]).
Qed.

(** One ownership test: [hasattr(obj, rel) and obj.rel == request.user]. *)
Lemma relation_test (rel : string) :
  and_ (hasattr_ (val obj) rel) (eq_ (val obj ∙ rel) (val request ∙ "user"))
  = Ok (PBool (relation_matches obj rel user)).
Proof.
  observations.
  unfold and_, hasattr_, eq_, attr, val, hasattr, relation_matches, getattr in *.
  step. destruct (lookup_attr obj rel) as [x|]; step; [|reflexivity].
  rewrite Huser. reflexivity.
Qed.

Lemma isOwnerOrStaff_outcome (r : string) :
  resolved_role user r →
  evaluate isOwnerOrStaff request view obj
  = Ok (PBool (bool_decide (r ∈ ["admin"; "manager"; "adjuster"; "reviewer"; "agent"])
               || (relation_matches obj "claimant" user
                   || relation_matches obj "holder" user
                   || relation_matches obj "user" user))).
Proof.
  intros Hr. unfold evaluate, permission_class, IsOwnerOrStaff, has_object_permission.
  rewrite !relation_test. run. rewrite staff_role_test.
  destruct (bool_decide _); cbn; [reflexivity|].
  destruct (relation_matches obj "claimant" user); cbn; [reflexivity|].
  destruct (relation_matches obj "holder" user); cbn; [reflexivity|].
  destruct (relation_matches obj "user" user); reflexivity.
Qed.
End Outcomes.

(** ** The input domain *)

Lemma wf_user_inv (u : pyval) :
  wf_user u = true → ∃ b r, is_authenticated u b ∧ resolved_role u r.
Proof.
  unfold is_authenticated, resolved_role, _get_role, getattr_default, getattr.
  destruct u as [| | |i attrs]; try done. cbn.
  destruct (attrs !! "is_authenticated") as [[|b| |]|]; try done.
  destruct (attrs !! "profile") as [p|]; [|by eauto].
  destruct p as [| | |j pattrs]; try done; cbn; [by eauto|].
  unfold getattr. cbn.
  destruct (pattrs !! "role") as [[| |r|]|]; try done. by eauto.
Qed.

Lemma wf_request_inv (request : pyval) :
  wf_request request = true →
  ∃ u b r m, principal_of request u ∧ is_authenticated u b ∧ resolved_role u r
             ∧ getattr request "method" = Ok (PStr m).
Proof.
  destruct request as [| | |i attrs]; try done.
  unfold principal_of, getattr. cbn.
  destruct (attrs !! "user") as [u|]; [|done].
  destruct (attrs !! "method") as [[| |m|]|]; try done.
  intros (b & r & Hb & Hr)%wf_user_inv. by eauto 10.
Qed.

Lemma operation_kind (request : pyval) (m : string) :
  getattr request "method" = Ok (PStr m) → read_only request ∨ mutating request.
Proof.
  intros Hm. destruct (decide (m ∈ ["GET"; "HEAD"; "OPTIONS"])); [left | right]; by exists m.
Qed.

Lemma evaluate_boolean (d : decision) (request view obj : pyval) :
  wf_request request = true → ∃ b, evaluate d request view obj = Ok (PBool b).
Proof.
  intros (u & b & r & m & Hu & Hb & Hr & Hm)%wf_request_inv.
  destruct (decide (d = isOwnerOrStaff)) as [->|Hd].
  { rewrite (isOwnerOrStaff_outcome _ _ _ _ Hu r Hr). eauto. }
  destruct b; [|rewrite (unauthenticated_outcome _ _ _ _ Hu d Hb Hd); eauto].
  destruct (operation_kind _ _ Hm) as [Hk|Hk]; destruct d; try done.
  all: first
    [ rewrite (isAdmin_outcome _ _ _ _ Hu r Hb Hr)
    | rewrite (isManagement_outcome _ _ _ _ Hu r Hb Hr)
    | rewrite (isStaff_outcome _ _ _ _ Hu r Hb Hr)
    | rewrite (isStaffOrReadOnly_read _ _ _ _ Hu Hb Hk)
    | rewrite (isStaffOrReadOnly_write _ _ _ _ Hu r Hb Hr Hk)
    | rewrite (canProcessClaims_outcome _ _ _ _ Hu r Hb Hr)
    | rewrite (canAssignClaims_outcome _ _ _ _ Hu r Hb Hr)
    | rewrite (canManageFraudAlerts_read _ _ _ _ Hu r Hb Hr Hk)
    | rewrite (canManageFraudAlerts_write _ _ _ _ Hu r Hb Hr Hk)
    | rewrite (canViewAnalytics_outcome _ _ _ _ Hu r Hb Hr)
    | rewrite (canManageUsers_outcome _ _ _ _ Hu r Hb Hr) ]; eauto.
Qed.

(** Two runs agree as soon as they agree on what the code reads. *)
Lemma evaluate_ext (d : decision) (request1 request2 view1 view2 obj1 obj2 u1 u2 : pyval) :
  principal_of request1 u1 → principal_of request2 u2 →
  getattr u1 "is_authenticated" = getattr u2 "is_authenticated" →
  _get_role u1 = _get_role u2 →
  (∀ x, py_eq x u1 = py_eq x u2) →
  getattr request1 "method" = getattr request2 "method" →
  (∀ rel, rel ∈ ["claimant"; "holder"; "user"] → lookup_attr obj1 rel = lookup_attr obj2 rel) →
  evaluate d request1 view1 obj1 = evaluate d request2 view2 obj2.
Proof.
  intros H1 H2 Ha Hr Hid Hm Hrel.
  assert (Hmatch : ∀ rel, rel ∈ ["claimant"; "holder"; "user"] →
            relation_matches obj1 rel u1 = relation_matches obj2 rel u2).
  { intros rel Hin. unfold relation_matches. rewrite (Hrel rel Hin).
    destruct (lookup_attr obj2 rel); [apply Hid | reflexivity]. }
  destruct d.
  5: { unfold evaluate, permission_class, IsOwnerOrStaff, has_object_permission.
       rewrite !(relation_test _ _ _ H1), !(relation_test _ _ _ H2).
       rewrite !Hmatch by set_solver. run. by rewrite Hr. }
  all: run; by rewrite ?Ha, ?Hr, ?Hm.
Qed.

(** ** An unauthenticated principal *)

(** C1, as stated, fails at the object-level decision: an unauthenticated
    principal whose profile carries a staff role passes [isOwnerOrStaff],
    which never reads the authentication flag. *)
Lemma unauthenticated_staff_passes_object_check :
  principal_of (request_of (user_with 7 false "agent") "GET") (user_with 7 false "agent")
  ∧ is_authenticated (user_with 7 false "agent") false
  ∧ evaluate isOwnerOrStaff (request_of (user_with 7 false "agent") "GET") PNone unowned
    = Ok (PBool true)
  ∧ ¬ denies (evaluate isOwnerOrStaff (request_of (user_with 7 false "agent") "GET") PNone unowned).
Proof. repeat split; done. Qed.

(** C1 (amended).  For an unauthenticated principal each of the nine
    request-level decisions returns false, whatever the operation and the
    target object.  The object-level decision [isOwnerOrStaff] does not
    consult the authentication flag; it returns false for such a principal
    when the resolved role is not a staff role and no exposed ownership
    relation equals the principal. *)
Theorem unauthenticated_is_denied (request view obj u : pyval) :
  principal_of request u → is_authenticated u false →
  (∀ d, d ≠ isOwnerOrStaff → denies (evaluate d request view obj))
  ∧ (∀ r, resolved_role u r →
          r ∉ ["admin"; "manager"; "adjuster"; "reviewer"; "agent"] →
          ¬ owner obj u →
          denies (evaluate isOwnerOrStaff request view obj)).
Proof.
  intros Hu Ha. split.
  - intros d Hd. exact (unauthenticated_outcome _ view obj _ Hu d Ha Hd).
  - intros r Hr Hstaff Hown. unfold denies.
    rewrite (isOwnerOrStaff_outcome _ view obj _ Hu r Hr).
    rewrite bool_decide_eq_false_2 by done.
    rewrite owner_matches in Hown. by apply not_true_is_false in Hown as ->.
Qed.

Lemma unauthenticated_is_denied_witness :
  principal_of (request_of (anonymous_like 9 false) "DELETE") (anonymous_like 9 false)
  ∧ is_authenticated (anonymous_like 9 false) false
  ∧ (∀ d, d ≠ isOwnerOrStaff →
          denies (evaluate d (request_of (anonymous_like 9 false) "DELETE") PNone
                    (claim_of (user_with 1 true "customer"))))
  ∧ (∀ r, resolved_role (anonymous_like 9 false) r →
          r ∉ ["admin"; "manager"; "adjuster"; "reviewer"; "agent"] →
          ¬ owner (claim_of (user_with 1 true "customer")) (anonymous_like 9 false) →
          denies (evaluate isOwnerOrStaff (request_of (anonymous_like 9 false) "DELETE") PNone
                    (claim_of (user_with 1 true "customer")))).
Proof.
  split; [reflexivity|]. split; [reflexivity|].
  apply (unauthenticated_is_denied
           (request_of (anonymous_like 9 false) "DELETE") PNone
           (claim_of (user_with 1 true "customer")) (anonymous_like 9 false));
    reflexivity.
Defined.

(** ** The object-level decision *)

(** C2.  For a principal [u] with resolved role [r] and a target object
    [obj], [isOwnerOrStaff] returns true exactly when [r] is a staff role
    or [obj] exposes one of the relations claimant, holder, user with a
    value equal to [u]; otherwise it returns false. *)
Theorem isOwnerOrStaff_iff_staff_or_owner (request view obj u : pyval) (r : string) :
  principal_of request u → resolved_role u r →
  decides (evaluate isOwnerOrStaff request view obj)
          (r ∈ ["admin"; "manager"; "adjuster"; "reviewer"; "agent"]
           ∨ ∃ rel, rel ∈ ["claimant"; "holder"; "user"] ∧ owner_via obj rel u).
Proof.
  intros Hu Hr. fold (owner obj u).
  apply (decides_outcome _ _ _ (isOwnerOrStaff_outcome _ view obj _ Hu r Hr)).
  by rewrite orb_true_iff, bool_decide_eq_true, owner_matches.
Qed.

Lemma isOwnerOrStaff_iff_staff_or_owner_witness :
  principal_of (request_of (user_with 1 true "customer") "PATCH") (user_with 1 true "customer")
  ∧ resolved_role (user_with 1 true "customer") "customer"
  ∧ decides (evaluate isOwnerOrStaff (request_of (user_with 1 true "customer") "PATCH") PNone
               (policy_of (anonymous_like 1 true)))
            ("customer" ∈ ["admin"; "manager"; "adjuster"; "reviewer"; "agent"]
             ∨ ∃ rel, rel ∈ ["claimant"; "holder"; "user"]
                      ∧ owner_via (policy_of (anonymous_like 1 true)) rel
                          (user_with 1 true "customer")).
Proof.
  split; [reflexivity|]. split; [reflexivity|].
  apply (isOwnerOrStaff_iff_staff_or_owner
           (request_of (user_with 1 true "customer") "PATCH") PNone
           (policy_of (anonymous_like 1 true)) (user_with 1 true "customer") "customer");
    reflexivity.
Defined.

(** ** Operation-sensitive decisions *)

(** C3.  For an authenticated principal with resolved role [r],
    [canManageFraudAlerts] returns true on a read-only operation exactly
    when [r] is admin, manager, adjuster or reviewer, and on a mutating
    operation exactly when [r] is admin, manager or adjuster; so a
    reviewer is allowed to read and denied to mutate. *)
Theorem canManageFraudAlerts_by_operation (request view obj u : pyval) (r : string) :
  principal_of request u → is_authenticated u true → resolved_role u r →
  (read_only request →
     decides (evaluate canManageFraudAlerts request view obj)
             (r ∈ ["admin"; "manager"; "adjuster"; "reviewer"]))
  ∧ (mutating request →
     decides (evaluate canManageFraudAlerts request view obj)
             (r ∈ ["admin"; "manager"; "adjuster"]))
  ∧ (r = "reviewer" → read_only request →
     allows (evaluate canManageFraudAlerts request view obj))
  ∧ (r = "reviewer" → mutating request →
     denies (evaluate canManageFraudAlerts request view obj)).
Proof.
  intros Hu Ha Hr. split_and!.
  1,2: intros Hk; refine (decides_bool _ _ _).
  - exact (canManageFraudAlerts_read _ view obj _ Hu r Ha Hr Hk).
  - exact (canManageFraudAlerts_write _ view obj _ Hu r Ha Hr Hk).
  - intros -> Hk. exact (canManageFraudAlerts_read _ view obj _ Hu _ Ha Hr Hk).
  - intros -> Hk. exact (canManageFraudAlerts_write _ view obj _ Hu _ Ha Hr Hk).
Qed.

Lemma canManageFraudAlerts_by_operation_witness :
  principal_of (request_of (user_with 3 true "reviewer") "POST") (user_with 3 true "reviewer")
  ∧ is_authenticated (user_with 3 true "reviewer") true
  ∧ resolved_role (user_with 3 true "reviewer") "reviewer"
  ∧ mutating (request_of (user_with 3 true "reviewer") "POST")
  ∧ denies (evaluate canManageFraudAlerts
              (request_of (user_with 3 true "reviewer") "POST") PNone PNone).
Proof.
  assert (Hk : mutating (request_of (user_with 3 true "reviewer") "POST")).
  { exists "POST". split; [reflexivity | by apply (bool_decide_unpack _)]. }
  repeat (split; [first [reflexivity | exact Hk]|]).
  apply (canManageFraudAlerts_by_operation
           (request_of (user_with 3 true "reviewer") "POST") PNone PNone
           (user_with 3 true "reviewer") "reviewer");
    first [reflexivity | exact Hk].
Defined.

(** C4.  For an authenticated principal, [isStaffOrReadOnly] returns true
    on a read-only operation whatever the role, and on a mutating
    operation returns true exactly when the resolved role is a staff
    role. *)
Theorem isStaffOrReadOnly_by_operation (request view obj u : pyval) :
  principal_of request u → is_authenticated u true →
  (read_only request → allows (evaluate isStaffOrReadOnly request view obj))
  ∧ (∀ r, resolved_role u r → mutating request →
          decides (evaluate isStaffOrReadOnly request view obj)
                  (r ∈ ["admin"; "manager"; "adjuster"; "reviewer"; "agent"])).
Proof.
  intros Hu Ha. split.
  - intros Hk. exact (isStaffOrReadOnly_read _ view obj _ Hu Ha Hk).
  - intros r Hr Hk. refine (decides_bool _ _ _).
    exact (isStaffOrReadOnly_write _ view obj _ Hu r Ha Hr Hk).
Qed.

Lemma isStaffOrReadOnly_by_operation_witness :
  principal_of (request_of (user_with 4 true "customer") "HEAD") (user_with 4 true "customer")
  ∧ is_authenticated (user_with 4 true "customer") true
  ∧ read_only (request_of (user_with 4 true "customer") "HEAD")
  ∧ allows (evaluate isStaffOrReadOnly
              (request_of (user_with 4 true "customer") "HEAD") PNone PNone).
Proof.
  assert (Hk : read_only (request_of (user_with 4 true "customer") "HEAD")).
  { exists "HEAD". split; [reflexivity | by apply (bool_decide_unpack _)]. }
  repeat (split; [first [reflexivity | exact Hk]|]).
  apply (isStaffOrReadOnly_by_operation
           (request_of (user_with 4 true "customer") "HEAD") PNone PNone
           (user_with 4 true "customer"));
    first [reflexivity | exact Hk].
Defined.

(** ** Role-only decisions *)

(** C5.  For an authenticated principal with resolved role [r], and
    whatever the operation: [isStaff] returns true exactly when [r] is
    admin, manager, adjuster, reviewer or agent; [isManagement] exactly
    when [r] is admin or manager; [canProcessClaims] exactly when [r] is
    admin, manager or adjuster; [canViewAnalytics] exactly when [r] is
    admin, manager or reviewer. *)
Theorem role_only_decisions (request view obj u : pyval) (r : string) :
  principal_of request u → is_authenticated u true → resolved_role u r →
  decides (evaluate isStaff request view obj)
          (r ∈ ["admin"; "manager"; "adjuster"; "reviewer"; "agent"])
  ∧ decides (evaluate isManagement request view obj)
            (r ∈ ["admin"; "manager"])
  ∧ decides (evaluate canProcessClaims request view obj)
            (r ∈ ["admin"; "manager"; "adjuster"])
  ∧ decides (evaluate canViewAnalytics request view obj)
            (r ∈ ["admin"; "manager"; "reviewer"]).
Proof.
  intros Hu Ha Hr. split_and!; refine (decides_bool _ _ _).
  - exact (isStaff_outcome _ view obj _ Hu r Ha Hr).
  - exact (isManagement_outcome _ view obj _ Hu r Ha Hr).
  - exact (canProcessClaims_outcome _ view obj _ Hu r Ha Hr).
  - exact (canViewAnalytics_outcome _ view obj _ Hu r Ha Hr).
Qed.

Lemma role_only_decisions_witness :
  principal_of (request_of (user_with 5 true "adjuster") "PUT") (user_with 5 true "adjuster")
  ∧ is_authenticated (user_with 5 true "adjuster") true
  ∧ resolved_role (user_with 5 true "adjuster") "adjuster"
  ∧ decides (evaluate isStaff (request_of (user_with 5 true "adjuster") "PUT") PNone PNone)
            ("adjuster" ∈ ["admin"; "manager"; "adjuster"; "reviewer"; "agent"])
  ∧ decides (evaluate isManagement (request_of (user_with 5 true "adjuster") "PUT") PNone PNone)
            ("adjuster" ∈ ["admin"; "manager"])
  ∧ decides (evaluate canProcessClaims (request_of (user_with 5 true "adjuster") "PUT") PNone PNone)
            ("adjuster" ∈ ["admin"; "manager"; "adjuster"])
  ∧ decides (evaluate canViewAnalytics (request_of (user_with 5 true "adjuster") "PUT") PNone PNone)
            ("adjuster" ∈ ["admin"; "manager"; "reviewer"]).
Proof.
  split; [reflexivity|]. split; [reflexivity|]. split; [reflexivity|].
  apply (role_only_decisions
           (request_of (user_with 5 true "adjuster") "PUT") PNone PNone
           (user_with 5 true "adjuster") "adjuster");
    reflexivity.
Defined.

(** ** The default role *)

Lemma no_role_customer (u : pyval) : no_role u → resolved_role u "customer".
Proof.
  unfold no_role, resolved_role, _get_role, getattr_default.
  by intros [-> | ->].
Qed.

Lemma same_identity_obj (i : nat) (attrs1 attrs2 : gmap string pyval) :
  same_identity (PObj i attrs1) (PObj i attrs2).
Proof. by intros [| | |]. Qed.

(** C6.  Role resolution defaults to customer and does not fail: a
    principal without a role attribute resolves to customer, every
    well-formed principal resolves to some role, and a principal without
    a role attribute gets from every named decision, for every operation
    and target object, the outcome that the same principal gets with an
    explicit customer role. *)
Theorem missing_role_is_customer :
  (∀ u, no_role u → resolved_role u "customer")
  ∧ (∀ u, wf_user u = true → ∃ r, resolved_role u r)
  ∧ (∀ d request1 request2 view obj u1 u2,
       principal_of request1 u1 → no_role u1 →
       principal_of request2 u2 → resolved_role u2 "customer" →
       same_identity u1 u2 →
       getattr u1 "is_authenticated" = getattr u2 "is_authenticated" →
       getattr request1 "method" = getattr request2 "method" →
       evaluate d request1 view obj = evaluate d request2 view obj
       ∧ (wf_request request1 = true →
          ∃ b, evaluate d request1 view obj = Ok (PBool b)
               ∧ evaluate d request2 view obj = Ok (PBool b))).
Proof.
  split_and!.
  - exact no_role_customer.
  - intros u (b & r & _ & Hr)%wf_user_inv. by exists r.
  - intros d request1 request2 view obj u1 u2 H1 Hno H2 Hr Hid Ha Hm.
    apply no_role_customer in Hno.
    assert (Heq : evaluate d request1 view obj = evaluate d request2 view obj).
    { apply (evaluate_ext d _ _ _ _ _ _ u1 u2); try done.
      unfold resolved_role in *. congruence. }
    split; [exact Heq|]. intros Hwf.
    destruct (evaluate_boolean d request1 view obj Hwf) as [b Hb].
    exists b. by rewrite <- Heq.
Qed.

Lemma missing_role_is_customer_witness :
  no_role (anonymous_like 6 true)
  ∧ resolved_role (anonymous_like 6 true) "customer"
  ∧ evaluate isOwnerOrStaff (request_of (anonymous_like 6 true) "PUT") PNone
      (record_of (anonymous_like 6 true))
    = evaluate isOwnerOrStaff (request_of (user_with 6 true "customer") "PUT") PNone
        (record_of (anonymous_like 6 true)).
Proof.
  assert (Hno : no_role (anonymous_like 6 true)) by (left; reflexivity).
  split; [exact Hno|]. split.
  - exact (proj1 missing_role_is_customer _ Hno).
  - apply (proj2 (proj2 missing_role_is_customer) isOwnerOrStaff
             (request_of (anonymous_like 6 true) "PUT")
             (request_of (user_with 6 true "customer") "PUT") PNone
             (record_of (anonymous_like 6 true))
             (anonymous_like 6 true) (user_with 6 true "customer"));
      first [reflexivity | exact Hno | apply same_identity_obj].
Defined.

(** ** Dependence on the inputs *)

(** On values, a decision is a function of the principal, the operation
    and the ownership relations of the target: two invocations that
    agree on these return the same outcome, whatever the view and
    whatever else the request and the target carry. *)
Theorem decisions_depend_only_on_inputs
    (d : decision) (request1 request2 view1 view2 obj1 obj2 : pyval) :
  getattr request1 "user" = getattr request2 "user" →
  getattr request1 "method" = getattr request2 "method" →
  (∀ rel, rel ∈ ["claimant"; "holder"; "user"] →
          lookup_attr obj1 rel = lookup_attr obj2 rel) →
  evaluate d request1 view1 obj1 = evaluate d request2 view2 obj2.
Proof.
  intros Hu Hm Hrel.
  destruct (getattr request2 "user") as [u|e] eqn:H2.
  - by apply (evaluate_ext d _ _ _ _ _ _ u u).
  - destruct d; run; by rewrite Hu, H2.
Qed.

Lemma decisions_depend_only_on_inputs_witness :
  getattr (request_of (user_with 8 true "manager") "POST") "user"
  = getattr (PObj 55 (<[ "data" := PStr "x" ]>
                        (<[ "user" := user_with 8 true "manager" ]>
                           {[ "method" := PStr "POST" ]}))) "user"
  ∧ evaluate canAssignClaims (request_of (user_with 8 true "manager") "POST") PNone unowned
    = evaluate canAssignClaims
        (PObj 55 (<[ "data" := PStr "x" ]>
                    (<[ "user" := user_with 8 true "manager" ]>
                       {[ "method" := PStr "POST" ]})))
        (PStr "ClaimViewSet") (PObj 104 {[ "status" := PStr "open" ]}).
Proof.
  split; [reflexivity|].
  apply (decisions_depend_only_on_inputs canAssignClaims
           (request_of (user_with 8 true "manager") "POST")
           (PObj 55 (<[ "data" := PStr "x" ]>
                       (<[ "user" := user_with 8 true "manager" ]>
                          {[ "method" := PStr "POST" ]})))
           PNone (PStr "ClaimViewSet") unowned (PObj 104 {[ "status" := PStr "open" ]}));
    [reflexivity | reflexivity | ].
  intros rel Hrel. rewrite !elem_of_cons, elem_of_nil in Hrel.
  destruct Hrel as [-> | [-> | [-> | []]]]; reflexivity.
Defined.

(** ** Totality *)



(** ** Relations between the decisions *)

(** C9.  An authenticated principal whose resolved role is admin is
    allowed by every named decision, for every operation kind and every
    target object; and admin belongs to every tuple of roles a decision
    tests membership in. *)
Theorem admin_dominance (d : decision) (request view obj u : pyval) :
  principal_of request u → is_authenticated u true → resolved_role u "admin" →
  read_only request ∨ mutating request →
  allows (evaluate d request view obj)
  ∧ Forall (λ group, py_in (PStr "admin") group = true)
      [STAFF_ROLES; MANAGEMENT_ROLES; PROCESSING_ROLES; OVERSIGHT_ROLES;
       [PStr "admin"; PStr "manager"; PStr "adjuster"; PStr "reviewer"];
       [PStr "admin"; PStr "manager"; PStr "adjuster"]].
Proof.
  intros Hu Ha Hr Hk. split; [|by repeat constructor].
  unfold allows. destruct d.
  - by rewrite (isAdmin_outcome _ view obj _ Hu _ Ha Hr).
  - by rewrite (isManagement_outcome _ view obj _ Hu _ Ha Hr).
  - by rewrite (isStaff_outcome _ view obj _ Hu _ Ha Hr).
  - destruct Hk as [Hk|Hk].
    + by rewrite (isStaffOrReadOnly_read _ view obj _ Hu Ha Hk).
    + by rewrite (isStaffOrReadOnly_write _ view obj _ Hu _ Ha Hr Hk).
  - by rewrite (isOwnerOrStaff_outcome _ view obj _ Hu _ Hr).
  - by rewrite (canProcessClaims_outcome _ view obj _ Hu _ Ha Hr).
  - by rewrite (canAssignClaims_outcome _ view obj _ Hu _ Ha Hr).
  - destruct Hk as [Hk|Hk].
    + by rewrite (canManageFraudAlerts_read _ view obj _ Hu _ Ha Hr Hk).
    + by rewrite (canManageFraudAlerts_write _ view obj _ Hu _ Ha Hr Hk).
  - by rewrite (canViewAnalytics_outcome _ view obj _ Hu _ Ha Hr).
  - by rewrite (canManageUsers_outcome _ view obj _ Hu _ Ha Hr).
Qed.

Lemma admin_dominance_witness :
  principal_of (request_of (user_with 10 true "admin") "DELETE") (user_with 10 true "admin")
  ∧ is_authenticated (user_with 10 true "admin") true
  ∧ resolved_role (user_with 10 true "admin") "admin"
  ∧ mutating (request_of (user_with 10 true "admin") "DELETE")
  ∧ allows (evaluate canManageFraudAlerts
              (request_of (user_with 10 true "admin") "DELETE") PNone unowned).
Proof.
  assert (Hk : mutating (request_of (user_with 10 true "admin") "DELETE")).
  { exists "DELETE". split; [reflexivity | by apply (bool_decide_unpack _)]. }
  repeat (split; [first [reflexivity | exact Hk]|]).
  apply (admin_dominance canManageFraudAlerts
           (request_of (user_with 10 true "admin") "DELETE") PNone unowned
           (user_with 10 true "admin"));
    first [reflexivity | right; exact Hk].
Defined.

(** C10.  [isManagement], [canAssignClaims] and [canManageUsers] return
    the same outcome on every request; each is true exactly when the
    principal is authenticated and its resolved role is admin or
    manager. *)
Theorem management_decisions_coincide (request view obj : pyval) :
  evaluate isManagement request view obj = evaluate canAssignClaims request view obj
  ∧ evaluate canAssignClaims request view obj = evaluate canManageUsers request view obj
  ∧ ∀ u b r, principal_of request u → is_authenticated u b → resolved_role u r →
      decides (evaluate isManagement request view obj)
              (b = true ∧ r ∈ ["admin"; "manager"]).
Proof.
  split_and!; [reflexivity | reflexivity |].
  intros u b r Hu Ha Hr.
  apply (decides_outcome _ _ _ (guarded_membership _ _ Hu b r ["admin"; "manager"] Ha Hr)).
  by rewrite andb_true_iff, bool_decide_eq_true.
Qed.

Lemma management_decisions_coincide_witness :
  principal_of (request_of (user_with 11 true "manager") "POST") (user_with 11 true "manager")
  ∧ is_authenticated (user_with 11 true "manager") true
  ∧ resolved_role (user_with 11 true "manager") "manager"
  ∧ decides (evaluate isManagement (request_of (user_with 11 true "manager") "POST") PNone PNone)
            (true = true ∧ "manager" ∈ ["admin"; "manager"]).
Proof.
  split; [reflexivity|]. split; [reflexivity|]. split; [reflexivity|].
  apply (proj2 (proj2 (management_decisions_coincide
                         (request_of (user_with 11 true "manager") "POST") PNone PNone))
           (user_with 11 true "manager") true "manager");
    reflexivity.
Defined.

(** * Further properties of the permission classes *)

(** ** Runs on arbitrary requests *)

Lemma getattr_raises (v : pyval) (name : string) (e : exn) :
  getattr v name = Raise e ↔ lookup_attr v name = None ∧ e = AttributeError name.
Proof.
  unfold getattr. destruct (lookup_attr v name); split; try done.
  - by intros [? _].
  - by intros [= <-].
  - by intros [_ ->].
Qed.


(** The object-level check, for whatever value the role resolves to. *)
Lemma isOwnerOrStaff_run (request view obj u rv : pyval) :
  getattr request "user" = Ok u → _get_role u = Ok rv →
  evaluate isOwnerOrStaff request view obj
  = Ok (PBool (py_in rv STAFF_ROLES
               || (relation_matches obj "claimant" u
                   || relation_matches obj "holder" u
                   || relation_matches obj "user" u))).
Proof.
  intros Hu Hr. unfold evaluate, permission_class, IsOwnerOrStaff, has_object_permission.
  rewrite !(relation_test _ _ _ Hu). run.
  destruct (py_in rv STAFF_ROLES); cbn; [reflexivity|].
  destruct (relation_matches obj "claimant" u); cbn; [reflexivity|].
  destruct (relation_matches obj "holder" u); cbn; [reflexivity|].
  destruct (relation_matches obj "user" u); reflexivity.
Qed.

(** ** The administrator check *)

(** X1.  [isAdmin] returns true exactly when the principal is
    authenticated and the resolved role is the string admin, and false
    otherwise. *)
Theorem isAdmin_iff_authenticated_admin
    (request view obj u : pyval) (b : bool) (r : string) :
  principal_of request u → is_authenticated u b → resolved_role u r →
  decides (evaluate isAdmin request view obj) (b = true ∧ r = "admin").
Proof.
  intros Hu Ha Hr. destruct b.
  - apply (decides_outcome _ _ _ (isAdmin_outcome _ view obj _ Hu r Ha Hr)).
    rewrite bool_decide_eq_true. tauto.
  - apply (decides_outcome _ false _
             (unauthenticated_outcome _ view obj _ Hu isAdmin Ha ltac:(done))).
    split; [done | by intros [? _]].
Qed.

Lemma isAdmin_iff_authenticated_admin_witness :
  principal_of (request_of (user_with 12 true "manager") "GET") (user_with 12 true "manager")
  ∧ is_authenticated (user_with 12 true "manager") true
  ∧ resolved_role (user_with 12 true "manager") "manager"
  ∧ decides (evaluate isAdmin (request_of (user_with 12 true "manager") "GET") PNone PNone)
            (true = true ∧ "manager" = "admin").
Proof.
  split; [reflexivity|]. split; [reflexivity|]. split; [reflexivity|].
  apply (isAdmin_iff_authenticated_admin
           (request_of (user_with 12 true "manager") "GET") PNone PNone
           (user_with 12 true "manager") true "manager");
    reflexivity.
Defined.

(** ** How the decisions order the principals *)

(** X2.  The decisions form a hierarchy on every request and target:
    whoever passes [isAdmin] passes [isManagement]; whoever passes
    [isManagement] passes [canProcessClaims] and [canViewAnalytics];
    whoever passes [canProcessClaims], [canViewAnalytics] or
    [canManageFraudAlerts] passes [isStaff]; and whoever passes
    [isStaff] passes [isOwnerOrStaff] on any target. *)
Theorem privilege_hierarchy (request view obj : pyval) :
  (allows (evaluate isAdmin request view obj) →
   allows (evaluate isManagement request view obj))
  ∧ (allows (evaluate isManagement request view obj) →
     allows (evaluate canProcessClaims request view obj)
     ∧ allows (evaluate canViewAnalytics request view obj))
  ∧ (allows (evaluate canProcessClaims request view obj) →
     allows (evaluate isStaff request view obj))
  ∧ (allows (evaluate canViewAnalytics request view obj) →
     allows (evaluate isStaff request view obj))
  ∧ (allows (evaluate canManageFraudAlerts request view obj) →
     allows (evaluate isStaff request view obj))
  ∧ (allows (evaluate isStaff request view obj) →
     allows (evaluate isOwnerOrStaff request view obj)).
Proof.
  split_and!.
  - run. eval_cases; try done. role_tests; done.
  - run. eval_cases; try done. role_tests; done.
  - run. eval_cases; try done. role_tests; done.
  - run. eval_cases; try done. role_tests; done.
  - run. eval_cases; try done; role_tests; done.
  - run.
    destruct (getattr request "user") as [u|]; step; [|done].
    destruct (getattr u "is_authenticated") as [a|]; step; [|by destruct (_get_role u)].
    destruct (truthy a) eqn:Ha; step.
    + destruct (_get_role u) as [rv|]; step; [|done]. intros Hin.
      by assert (py_in rv STAFF_ROLES = true) as -> by (by injection Hin).
    + intros [= ->]. done.
Qed.

Lemma privilege_hierarchy_witness :
  allows (evaluate isManagement (request_of (user_with 13 true "manager") "POST") PNone unowned)
  ∧ allows (evaluate canProcessClaims (request_of (user_with 13 true "manager") "POST") PNone unowned)
  ∧ allows (evaluate canViewAnalytics (request_of (user_with 13 true "manager") "POST") PNone unowned).
Proof.
  assert (H : allows (evaluate isManagement
                        (request_of (user_with 13 true "manager") "POST") PNone unowned))
    by reflexivity.
  split; [exact H|].
  exact (proj1 (proj2 (privilege_hierarchy
                         (request_of (user_with 13 true "manager") "POST") PNone unowned)) H).
Defined.

(** X3.  Reading is never refused where writing is allowed: if a
    decision allows a request, it allows every read-only request of the
    same principal on the same target. *)
Theorem read_allowed_where_write_is
    (d : decision) (request_w request_r view obj : pyval) :
  getattr request_w "user" = getattr request_r "user" →
  read_only request_r →
  allows (evaluate d request_w view obj) →
  allows (evaluate d request_r view obj).
Proof.
  intros Hu (m & Hm & Hin).
  assert (Hsafe : py_in (PStr m) SAFE_METHODS = true)
    by (by rewrite safe_method_test, bool_decide_eq_true_2).
  destruct d; run; rewrite ?Hu, ?Hm; step; rewrite ?Hsafe; try done.
  all: eval_cases; close_run.
Qed.

Lemma read_allowed_where_write_is_witness :
  getattr (request_of (user_with 14 true "adjuster") "POST") "user"
  = getattr (request_of (user_with 14 true "adjuster") "GET") "user"
  ∧ read_only (request_of (user_with 14 true "adjuster") "GET")
  ∧ allows (evaluate canManageFraudAlerts
              (request_of (user_with 14 true "adjuster") "POST") PNone PNone)
  ∧ allows (evaluate canManageFraudAlerts
              (request_of (user_with 14 true "adjuster") "GET") PNone PNone).
Proof.
  assert (Hk : read_only (request_of (user_with 14 true "adjuster") "GET")).
  { exists "GET". split; [reflexivity | by apply (bool_decide_unpack _)]. }
  split; [reflexivity|]. split; [exact Hk|]. split; [reflexivity|].
  apply (read_allowed_where_write_is canManageFraudAlerts
           (request_of (user_with 14 true "adjuster") "POST")
           (request_of (user_with 14 true "adjuster") "GET") PNone PNone);
    first [reflexivity | exact Hk].
Defined.

(** X4.  Whoever passes a role check passes the operation-sensitive check
    built on it, on any request that carries a verb: [isStaff] implies
    [isStaffOrReadOnly], [canProcessClaims] implies
    [canManageFraudAlerts], and on a read-only request
    [canViewAnalytics] implies [canManageFraudAlerts]. *)
Theorem role_checks_imply_operation_checks (request view obj m : pyval) :
  getattr request "method" = Ok m →
  (allows (evaluate isStaff request view obj) →
   allows (evaluate isStaffOrReadOnly request view obj))
  ∧ (allows (evaluate canProcessClaims request view obj) →
     allows (evaluate canManageFraudAlerts request view obj))
  ∧ (read_only request →
     allows (evaluate canViewAnalytics request view obj) →
     allows (evaluate canManageFraudAlerts request view obj)).
Proof.
  intros Hm. split_and!.
  - run. eval_cases; close_run.
  - run. eval_cases; close_run.
  - intros (m' & Hm' & Hin).
    assert (Hsafe : py_in (PStr m') SAFE_METHODS = true)
      by (by rewrite safe_method_test, bool_decide_eq_true_2).
    assert (m = PStr m') as -> by congruence.
    run. rewrite Hsafe. eval_cases; close_run.
Qed.

Lemma role_checks_imply_operation_checks_witness :
  getattr (request_of (user_with 15 true "agent") "POST") "method" = Ok (PStr "POST")
  ∧ allows (evaluate isStaff (request_of (user_with 15 true "agent") "POST") PNone PNone)
  ∧ allows (evaluate isStaffOrReadOnly (request_of (user_with 15 true "agent") "POST") PNone PNone).
Proof.
  split; [reflexivity|]. split; [reflexivity|].
  apply (proj1 (role_checks_imply_operation_checks
                  (request_of (user_with 15 true "agent") "POST") PNone PNone
                  (PStr "POST") eq_refl)).
  reflexivity.
Defined.

(** ** The operation-sensitive decisions in terms of the role checks *)

(** X5.  On a mutating request of a principal whose authentication flag
    is a boolean, [isStaffOrReadOnly] is [isStaff] and
    [canManageFraudAlerts] is [canProcessClaims]: same outcome, raised
    exception included. *)
Theorem mutating_reduces_to_role_check (request view obj u : pyval) (b : bool) :
  principal_of request u → is_authenticated u b → mutating request →
  evaluate isStaffOrReadOnly request view obj = evaluate isStaff request view obj
  ∧ evaluate canManageFraudAlerts request view obj
    = evaluate canProcessClaims request view obj.
Proof.
  intros Hu Ha (m & Hm & Hin).
  assert (Hsafe : py_in (PStr m) SAFE_METHODS = false)
    by (by rewrite safe_method_test, bool_decide_eq_false_2).
  split; run; destruct b; step; by rewrite ?Hsafe.
Qed.

Lemma mutating_reduces_to_role_check_witness :
  principal_of (request_of (user_with 16 true "reviewer") "PATCH") (user_with 16 true "reviewer")
  ∧ is_authenticated (user_with 16 true "reviewer") true
  ∧ mutating (request_of (user_with 16 true "reviewer") "PATCH")
  ∧ evaluate canManageFraudAlerts (request_of (user_with 16 true "reviewer") "PATCH") PNone PNone
    = evaluate canProcessClaims (request_of (user_with 16 true "reviewer") "PATCH") PNone PNone.
Proof.
  assert (Hk : mutating (request_of (user_with 16 true "reviewer") "PATCH")).
  { exists "PATCH". split; [reflexivity | by apply (bool_decide_unpack _)]. }
  split; [reflexivity|]. split; [reflexivity|]. split; [exact Hk|].
  apply (mutating_reduces_to_role_check
           (request_of (user_with 16 true "reviewer") "PATCH") PNone PNone
           (user_with 16 true "reviewer") true);
    first [reflexivity | exact Hk].
Defined.

(** X6.  On a read-only request of a principal whose authentication flag
    is a boolean, [canManageFraudAlerts] allows exactly those whom
    [canProcessClaims] or [canViewAnalytics] allows. *)
Theorem fraud_read_is_processing_or_oversight (request view obj u : pyval) (b : bool) :
  principal_of request u → is_authenticated u b → read_only request →
  allows (evaluate canManageFraudAlerts request view obj)
  ↔ allows (evaluate canProcessClaims request view obj)
    ∨ allows (evaluate canViewAnalytics request view obj).
Proof.
  intros Hu Ha (m & Hm & Hin).
  assert (Hsafe : py_in (PStr m) SAFE_METHODS = true)
    by (by rewrite safe_method_test, bool_decide_eq_true_2).
  run. destruct b; step; [|split; [done | by intros [?|?]]].
  destruct (_get_role u) as [rv|]; step; [|split; [done | by intros [?|?]]].
  rewrite Hsafe; step.
  role_tests; (split; [intros ?; first [by left | by right] | by intros [?|?]]).
Qed.

Lemma fraud_read_is_processing_or_oversight_witness :
  principal_of (request_of (user_with 17 true "reviewer") "GET") (user_with 17 true "reviewer")
  ∧ is_authenticated (user_with 17 true "reviewer") true
  ∧ read_only (request_of (user_with 17 true "reviewer") "GET")
  ∧ (allows (evaluate canManageFraudAlerts (request_of (user_with 17 true "reviewer") "GET") PNone PNone)
     ↔ allows (evaluate canProcessClaims (request_of (user_with 17 true "reviewer") "GET") PNone PNone)
       ∨ allows (evaluate canViewAnalytics (request_of (user_with 17 true "reviewer") "GET") PNone PNone)).
Proof.
  assert (Hk : read_only (request_of (user_with 17 true "reviewer") "GET")).
  { exists "GET". split; [reflexivity | by apply (bool_decide_unpack _)]. }
  split; [reflexivity|]. split; [reflexivity|]. split; [exact Hk|].
  apply (fraud_read_is_processing_or_oversight
           (request_of (user_with 17 true "reviewer") "GET") PNone PNone
           (user_with 17 true "reviewer") true);
    first [reflexivity | exact Hk].
Defined.

(** ** What raises, and what does not *)

(** X7.  Role resolution raises in exactly one situation: the user has a
    truthy profile that lacks the role attribute; the exception is then
    the attribute error for role.  A missing or falsy profile never
    raises. *)
Theorem get_role_raises_iff (user : pyval) (e : exn) :
  _get_role user = Raise e ↔
  ∃ p, lookup_attr user "profile" = Some p ∧ truthy p = true
       ∧ lookup_attr p "role" = None ∧ e = AttributeError "role".
Proof.
  unfold _get_role, getattr_default, attr, val. step.
  destruct (lookup_attr user "profile") as [p|]; cbn.
  - destruct (truthy p) eqn:Hp.
    + rewrite getattr_raises. split; [by eauto|].
      by intros (p' & [= <-] & _ & ? & ?).
    + split; [done|]. intros (p' & [= <-] & ? & _). congruence.
  - split; [done|]. by intros (p & ? & _).
Qed.

Lemma get_role_raises_iff_witness :
  _get_role (PObj 18 {[ "profile" := PObj 0 ∅ ]}) = Raise (AttributeError "role").
Proof.
  apply (proj2 (get_role_raises_iff (PObj 18 {[ "profile" := PObj 0 ∅ ]})
                  (AttributeError "role"))).
  exists (PObj 0 ∅). repeat split; reflexivity.
Defined.



(** X9.  The target object never makes the object-level check raise:
    [isOwnerOrStaff] raises exactly when the request has no user or the
    role of that user fails to resolve, whatever the target is. *)
Theorem target_never_raises (request view obj : pyval) (e : exn) :
  evaluate isOwnerOrStaff request view obj = Raise e ↔
  getattr request "user" = Raise e
  ∨ ∃ u, getattr request "user" = Ok u ∧ _get_role u = Raise e.
Proof.
  destruct (getattr request "user") as [u|e'] eqn:Hu.
  - destruct (_get_role u) as [rv|e''] eqn:Hr.
    + rewrite (isOwnerOrStaff_run _ view obj _ _ Hu Hr).
      split; [done|]. intros [? | (u' & [= <-] & ?)]; congruence.
    + run. rewrite Hr. step. split.
      * intros [= ->]. right. by exists u.
      * intros [? | (u' & [= <-] & ?)]; congruence.
  - run. rewrite Hu. step. split.
    + intros [= ->]. by left.
    + intros [[= ->] | (u & ? & _)]; done.
Qed.

Lemma target_never_raises_witness :
  evaluate isOwnerOrStaff (PObj 0 ∅) PNone (PStr "not an object")
  = Raise (AttributeError "user").
Proof.
  apply (proj2 (target_never_raises (PObj 0 ∅) PNone (PStr "not an object")
                  (AttributeError "user"))).
  left. reflexivity.
Defined.

(** X10.  Every decision reads the user of the request before anything
    else: on a request without one, all ten raise the attribute error
    for user. *)
Theorem request_without_user_raises (d : decision) (request view obj : pyval) :
  lookup_attr request "user" = None →
  evaluate d request view obj = Raise (AttributeError "user").
Proof.
  intros Hno.
  assert (Hu : getattr request "user" = Raise (AttributeError "user"))
    by (by apply getattr_raises).
  destruct d; run; by rewrite Hu.
Qed.

Lemma request_without_user_raises_witness :
  lookup_attr (PObj 0 {[ "method" := PStr "GET" ]}) "user" = None
  ∧ evaluate isOwnerOrStaff (PObj 0 {[ "method" := PStr "GET" ]}) PNone unowned
    = Raise (AttributeError "user").
Proof.
  split; [reflexivity|].
  apply (request_without_user_raises isOwnerOrStaff
           (PObj 0 {[ "method" := PStr "GET" ]}) PNone unowned).
  reflexivity.
Defined.

(** ** What a decision does not read *)

(** X11.  Only [isStaffOrReadOnly] and [canManageFraudAlerts] read the
    verb: each of the other eight decisions gives two requests of the
    same user the same outcome, whatever their verbs and views, and also
    when a request carries no verb at all. *)
Theorem verb_is_read_by_two_decisions_only
    (d : decision) (request1 request2 view1 view2 obj : pyval) :
  d ≠ isStaffOrReadOnly → d ≠ canManageFraudAlerts →
  getattr request1 "user" = getattr request2 "user" →
  evaluate d request1 view1 obj = evaluate d request2 view2 obj.
Proof.
  intros H1 H2 Hu. destruct d; try done; run; by rewrite Hu.
Qed.

Lemma verb_is_read_by_two_decisions_only_witness :
  canProcessClaims ≠ isStaffOrReadOnly
  ∧ canProcessClaims ≠ canManageFraudAlerts
  ∧ evaluate canProcessClaims (request_of (user_with 20 true "adjuster") "GET") PNone PNone
    = evaluate canProcessClaims (PObj 0 {[ "user" := user_with 20 true "adjuster" ]})
        (PStr "ClaimViewSet") PNone.
Proof.
  split; [done|]. split; [done|].
  apply (verb_is_read_by_two_decisions_only canProcessClaims
           (request_of (user_with 20 true "adjuster") "GET")
           (PObj 0 {[ "user" := user_with 20 true "adjuster" ]})
           PNone (PStr "ClaimViewSet") PNone);
    done.
Defined.

(** X12.  [isOwnerOrStaff] reads neither the authentication flag nor the
    verb: two requests whose users are the same principal with the same
    resolved role get the same outcome on the same target, whatever
    their flags and verbs. *)
Theorem isOwnerOrStaff_ignores_authentication
    (request1 request2 view1 view2 obj u1 u2 : pyval) :
  principal_of request1 u1 → principal_of request2 u2 →
  same_identity u1 u2 → _get_role u1 = _get_role u2 →
  evaluate isOwnerOrStaff request1 view1 obj
  = evaluate isOwnerOrStaff request2 view2 obj.
Proof.
  intros H1 H2 Hid Hr.
  assert (Hmatch : ∀ rel, relation_matches obj rel u1 = relation_matches obj rel u2).
  { intros rel. unfold relation_matches.
    destruct (lookup_attr obj rel); [apply Hid | reflexivity]. }
  unfold evaluate, permission_class, IsOwnerOrStaff, has_object_permission.
  rewrite !(relation_test _ _ _ H1), !(relation_test _ _ _ H2), !Hmatch.
  run. by rewrite Hr.
Qed.

Lemma isOwnerOrStaff_ignores_authentication_witness :
  principal_of (request_of (user_with 21 true "customer") "GET") (user_with 21 true "customer")
  ∧ principal_of (request_of (user_with 21 false "customer") "DELETE")
      (user_with 21 false "customer")
  ∧ same_identity (user_with 21 true "customer") (user_with 21 false "customer")
  ∧ evaluate isOwnerOrStaff (request_of (user_with 21 true "customer") "GET") PNone
      (claim_of (anonymous_like 21 true))
    = evaluate isOwnerOrStaff (request_of (user_with 21 false "customer") "DELETE") PNone
        (claim_of (anonymous_like 21 true)).
Proof.
  split; [reflexivity|]. split; [reflexivity|]. split; [apply same_identity_obj|].
  apply (isOwnerOrStaff_ignores_authentication
           (request_of (user_with 21 true "customer") "GET")
           (request_of (user_with 21 false "customer") "DELETE") PNone PNone
           (claim_of (anonymous_like 21 true))
           (user_with 21 true "customer") (user_with 21 false "customer"));
    first [reflexivity | apply same_identity_obj].
Defined.

(** ** Ownership at the edges *)

(** X13.  A relation that is present but holds [None] matches no user
    object: a non-staff principal that is an object is denied on a
    target each of whose three relations is absent or [None]. *)
Theorem null_owner_matches_no_user
    (request view obj : pyval) (i : nat) (attrs : gmap string pyval) (r : string) :
  principal_of request (PObj i attrs) → resolved_role (PObj i attrs) r →
  r ∉ ["admin"; "manager"; "adjuster"; "reviewer"; "agent"] →
  (∀ rel, rel ∈ ["claimant"; "holder"; "user"] →
          lookup_attr obj rel = None ∨ lookup_attr obj rel = Some PNone) →
  denies (evaluate isOwnerOrStaff request view obj).
Proof.
  intros Hu Hr Hstaff Hnull.
  assert (Hmatch : ∀ rel, rel ∈ ["claimant"; "holder"; "user"] →
            relation_matches obj rel (PObj i attrs) = false).
  { intros rel Hrel. unfold relation_matches. by destruct (Hnull rel Hrel) as [-> | ->]. }
  unfold denies. rewrite (isOwnerOrStaff_outcome _ view obj _ Hu r Hr).
  rewrite bool_decide_eq_false_2 by done.
  rewrite !Hmatch; [done | | |]; rewrite !elem_of_cons; tauto.
Qed.

Lemma null_owner_matches_no_user_witness :
  principal_of (request_of (user_with 22 true "customer") "GET") (user_with 22 true "customer")
  ∧ resolved_role (user_with 22 true "customer") "customer"
  ∧ denies (evaluate isOwnerOrStaff (request_of (user_with 22 true "customer") "GET") PNone
              (claim_of PNone)).
Proof.
  split; [reflexivity|]. split; [reflexivity|].
  apply (null_owner_matches_no_user
           (request_of (user_with 22 true "customer") "GET") PNone (claim_of PNone) 22
           (<[ "profile" := profile_with "customer" ]> {[ "is_authenticated" := PBool true ]})
           "customer");
    [reflexivity | reflexivity | by apply (bool_decide_unpack _) |].
  intros rel Hrel. rewrite !elem_of_cons, elem_of_nil in Hrel.
  destruct Hrel as [-> | [-> | [-> | []]]]; [right | left | left]; reflexivity.
Defined.

(** X14.  When the user of the request is [None] itself, role
    resolution gives customer and the comparison [None == None]
    succeeds: [isOwnerOrStaff] then allows every target that exposes one
    of the three relations with the value [None]. *)
Theorem none_user_owns_null_relation (request view obj : pyval) (rel : string) :
  principal_of request PNone →
  rel ∈ ["claimant"; "holder"; "user"] →
  lookup_attr obj rel = Some PNone →
  allows (evaluate isOwnerOrStaff request view obj).
Proof.
  intros Hu Hrel Hnull.
  assert (Hr : resolved_role PNone "customer") by reflexivity.
  assert (Hmatch : relation_matches obj rel PNone = true)
    by (unfold relation_matches; by rewrite Hnull).
  unfold allows. rewrite (isOwnerOrStaff_outcome _ view obj _ Hu _ Hr).
  rewrite !elem_of_cons, elem_of_nil in Hrel.
  destruct Hrel as [-> | [-> | [-> | []]]]; rewrite Hmatch; cbn;
    by rewrite ?orb_true_r.
Qed.

Lemma none_user_owns_null_relation_witness :
  principal_of (PObj 0 (<[ "user" := PNone ]> {[ "method" := PStr "DELETE" ]})) PNone
  ∧ lookup_attr (policy_of PNone) "holder" = Some PNone
  ∧ allows (evaluate isOwnerOrStaff
              (PObj 0 (<[ "user" := PNone ]> {[ "method" := PStr "DELETE" ]})) PNone
              (policy_of PNone)).
Proof.
  split; [reflexivity|]. split; [reflexivity|].
  apply (none_user_owns_null_relation
           (PObj 0 (<[ "user" := PNone ]> {[ "method" := PStr "DELETE" ]})) PNone
           (policy_of PNone) "holder");
    [reflexivity | rewrite !elem_of_cons; tauto | reflexivity].
Defined.

(** ** What a non-staff principal can be granted *)

(** X15.  A principal whose resolved role is not a staff role is allowed
    by a decision in two cases only: [isStaffOrReadOnly] on a read-only
    request, and [isOwnerOrStaff] on a target it owns. *)
Theorem non_staff_is_granted_only_reads_and_own_objects
    (d : decision) (request view obj u : pyval) (r : string) :
  principal_of request u → resolved_role u r →
  r ∉ ["admin"; "manager"; "adjuster"; "reviewer"; "agent"] →
  allows (evaluate d request view obj) →
  (d = isStaffOrReadOnly ∧ read_only request)
  ∨ (d = isOwnerOrStaff ∧ owner obj u).
Proof.
  intros Hu Hr Hstaff.
  assert (Hno : ∀ s, s ∈ ["admin"; "manager"; "adjuster"; "reviewer"; "agent"] →
            String.eqb r s = false).
  { intros s Hs. apply String.eqb_neq. by intros ->. }
  assert (Ha : String.eqb r "admin" = false) by (apply Hno; rewrite !elem_of_cons; tauto).
  assert (Hm : String.eqb r "manager" = false) by (apply Hno; rewrite !elem_of_cons; tauto).
  assert (Hj : String.eqb r "adjuster" = false) by (apply Hno; rewrite !elem_of_cons; tauto).
  assert (Hv : String.eqb r "reviewer" = false) by (apply Hno; rewrite !elem_of_cons; tauto).
  assert (Hg : String.eqb r "agent" = false) by (apply Hno; rewrite !elem_of_cons; tauto).
  destruct (decide (d = isOwnerOrStaff)) as [->|Hd].
  { unfold allows. rewrite (isOwnerOrStaff_outcome _ view obj _ Hu r Hr).
    rewrite bool_decide_eq_false_2 by done. cbn. intros [= Hown].
    right. split; [done|]. by apply owner_matches. }
  destruct d; try done; run; eval_cases; cbn; rewrite ?Ha, ?Hm, ?Hj, ?Hv, ?Hg; cbn;
    try done; try (by intros [= ->]).
  all: repeat match goal with
              | |- context [if ?c then _ else _] => destruct c eqn:?
              end; try done.
  intros _. left. split; [done|].
  match goal with
  | H : getattr request "method" = Ok ?m, Hs : _ = true |- _ =>
      destruct m as [| |s|]; try done; exists s; split; [done|];
      rewrite <- (bool_decide_eq_true (s ∈ ["GET"; "HEAD"; "OPTIONS"])),
        <- safe_method_test; exact Hs
  end.
Qed.

Lemma non_staff_is_granted_only_reads_and_own_objects_witness :
  principal_of (request_of (user_with 23 true "customer") "GET") (user_with 23 true "customer")
  ∧ resolved_role (user_with 23 true "customer") "customer"
  ∧ allows (evaluate isStaffOrReadOnly (request_of (user_with 23 true "customer") "GET")
              PNone unowned)
  ∧ ((isStaffOrReadOnly = isStaffOrReadOnly
      ∧ read_only (request_of (user_with 23 true "customer") "GET"))
     ∨ (isStaffOrReadOnly = isOwnerOrStaff ∧ owner unowned (user_with 23 true "customer"))).
Proof.
  split; [reflexivity|]. split; [reflexivity|]. split; [reflexivity|].
  apply (non_staff_is_granted_only_reads_and_own_objects isStaffOrReadOnly
           (request_of (user_with 23 true "customer") "GET") PNone unowned
           (user_with 23 true "customer") "customer");
    [reflexivity | reflexivity | by apply (bool_decide_unpack _) | reflexivity].
Defined.

(** ** An authentication flag that is not a boolean *)

(** X16.  A falsy authentication flag of any kind ([None], an empty
    string, [False]) never leads to an allow at request level: the two
    checks written with [if not] return false, and the seven written
    with [and] return the flag itself, which is not true. *)
Theorem falsy_flag_is_never_allowed (d : decision) (request view obj u a : pyval) :
  principal_of request u → getattr u "is_authenticated" = Ok a → truthy a = false →
  d ≠ isOwnerOrStaff →
  (d ∈ [isStaffOrReadOnly; canManageFraudAlerts] →
   denies (evaluate d request view obj))
  ∧ (d ∉ [isStaffOrReadOnly; canManageFraudAlerts] →
     evaluate d request view obj = Ok a)
  ∧ ¬ allows (evaluate d request view obj).
Proof.
  intros Hu Ha Hfalse Hd.
  assert (Hne : a ≠ PBool true) by (by intros ->).
  assert (Hout : evaluate d request view obj
                 = Ok (if bool_decide (d ∈ [isStaffOrReadOnly; canManageFraudAlerts])
                       then PBool false else a)).
  { destruct d; try done; run; rewrite Hfalse; reflexivity. }
  unfold allows, denies. rewrite Hout. split_and!.
  - intros Hin. by rewrite bool_decide_eq_true_2.
  - intros Hin. by rewrite bool_decide_eq_false_2.
  - destruct (bool_decide _); congruence.
Qed.

Lemma falsy_flag_is_never_allowed_witness :
  principal_of (PObj 0 {[ "user" := PObj 24 {[ "is_authenticated" := PNone ]} ]})
    (PObj 24 {[ "is_authenticated" := PNone ]})
  ∧ getattr (PObj 24 {[ "is_authenticated" := PNone ]}) "is_authenticated" = Ok PNone
  ∧ truthy PNone = false
  ∧ evaluate isStaff (PObj 0 {[ "user" := PObj 24 {[ "is_authenticated" := PNone ]} ]})
      PNone PNone = Ok PNone.
Proof.
  split; [reflexivity|]. split; [reflexivity|]. split; [reflexivity|].
  apply (falsy_flag_is_never_allowed isStaff
           (PObj 0 {[ "user" := PObj 24 {[ "is_authenticated" := PNone ]} ]})
           PNone PNone (PObj 24 {[ "is_authenticated" := PNone ]}) PNone);
    try done.
  rewrite !elem_of_cons, elem_of_nil.
  intros [? | [? | []]]; done.
Defined.

(** * Purity, over a store *)

(** ** Runs that leave the store alone *)

Section Preserves.
Import Heap.

Lemma preserves_ret {A : Type} (a : A) : preserves (mret a : M A).
Proof. by intros h. Qed.

Lemma preserves_bind {A B : Type} (m : M A) (f : A → M B) :
  preserves m → (∀ a, preserves (f a)) → preserves (m ≫= f).
Proof.
  intros Hm Hf h. unfold mbind, M_bind. specialize (Hm h).
  destruct (m h) as [[a|e] h']; cbn in *; subst; [apply Hf | done].
Qed.

Lemma preserves_getattr (v : hval) (name : string) : preserves (getattr v name).
Proof. intros h. unfold getattr. by destruct (field h v name). Qed.

Lemma preserves_getattr_default (v : hval) (name : string) (dflt : hval) :
  preserves (getattr_default v name dflt).
Proof. intros h. unfold getattr_default. by destruct (field h v name). Qed.

Lemma preserves_hasattr (v : hval) (name : string) : preserves (hasattr v name).
Proof. intros h. unfold hasattr. by destruct (field h v name). Qed.

Lemma preserves_inspect (f : heap → hval) : preserves (inspect f).
Proof. by intros h. Qed.

Lemma preserves_if {A : Type} (b : bool) (m1 m2 : M A) :
  preserves m1 → preserves m2 → preserves (if b then m1 else m2).
Proof. by destruct b. Qed.

End Preserves.

(** Preservation follows the shape of the program. *)
Ltac preserve :=
  repeat first
    [ apply preserves_bind; [|intros ?]
    | apply preserves_if
    | apply preserves_ret
    | apply preserves_getattr
    | apply preserves_getattr_default
    | apply preserves_hasattr
    | apply preserves_inspect ].

Ltac unfold_store :=
  unfold Heap.and_, Heap.not_, Heap.eq_, Heap.in_, Heap.if_, Heap.hasattr_,
    Heap.call, Heap.attr, Heap.val, Heap._get_role, Heap.True_, Heap.False_,
    Heap.base_has_permission, Heap.base_has_object_permission.

Lemma preserves_evaluate (d : decision) (request view obj : Heap.hval) :
  Heap.preserves (Heap.evaluate d request view obj).
Proof.
  destruct d; cbn; unfold_store; preserve.
Qed.

(** Running again from the store a run has left gives the same outcome
    and the same store. *)
Lemma preserves_again {A : Type} (m : Heap.M A) (h : Heap.heap) :
  Heap.preserves m → m (m h).2 = m h.
Proof. intros Hm. by rewrite Hm. Qed.

Lemma equal_agree (h h' : Heap.heap) (x y : Heap.hval) :
  Heap.ident h' x = Heap.ident h x → Heap.ident h' y = Heap.ident h y →
  Heap.equal h' x y = Heap.equal h x y.
Proof. intros Hx Hy. destruct x, y; try done. unfold Heap.equal. by rewrite Hx, Hy. Qed.

Lemma equal_string (h h' : Heap.heap) (x : Heap.hval) (s : string) :
  Heap.equal h' x (Heap.HStr s) = Heap.equal h x (Heap.HStr s).
Proof. by destruct x. Qed.

Lemma contains_strings (h h' : Heap.heap) (x : Heap.hval) (l : list string) :
  existsb (Heap.equal h' x) (Heap.HStr <$> l) = existsb (Heap.equal h x) (Heap.HStr <$> l).
Proof. induction l as [|s l IH]; cbn; [done|]. by rewrite IH, (equal_string h h'). Qed.


Section Frame.
Import Heap.
Variables (h h' : heap) (request obj : hval).

(** What the two stores have to agree on. *)
Hypothesis Hreq : ∀ n, field h' request n = field h request n.
Hypothesis Husr : ∀ u, field h request "user" = Some u →
  (∀ n, field h' u n = field h u n) ∧ ident h' u = ident h u.
Hypothesis Hpro : ∀ u p, field h request "user" = Some u →
  field h u "profile" = Some p → ∀ n, field h' p n = field h p n.
Hypothesis Hobj : ∀ n, field h' obj n = field h obj n.
Hypothesis Hrel : ∀ rel x, rel ∈ ["claimant"; "holder"; "user"] →
  field h obj rel = Some x → ident h' x = ident h x.

Lemma outcome_bind {A B : Type} (m : M A) (f : A → M B) (k : heap) :
  preserves m →
  outcome (m ≫= f) k
  = match outcome m k with
    | Ok a => outcome (f a) k
    | Raise e => Raise e
    end.
Proof.
  intros Hm. unfold outcome, mbind, M_bind. specialize (Hm k).
  destruct (m k) as [[a|e] k']; cbn in *; by subst.
Qed.

Lemma same_bind {A B : Type} (m : M A) (f : A → M B) :
  preserves m → outcome m h' = outcome m h →
  (∀ a, outcome m h = Ok a → outcome (f a) h' = outcome (f a) h) →
  outcome (m ≫= f) h' = outcome (m ≫= f) h.
Proof.
  intros Hm Hsame Hf. rewrite !outcome_bind, Hsame by done.
  destruct (outcome m h) as [a|e] eqn:Ha; [by apply Hf | done].
Qed.

Lemma outcome_ret {A : Type} (a : A) (k : heap) : outcome (mret a : M A) k = Ok a.
Proof. done. Qed.

Lemma outcome_getattr (v : hval) (name : string) (k : heap) :
  outcome (getattr v name) k
  = match field k v name with
    | Some x => Ok x
    | None => Raise (AttributeError name)
    end.
Proof. unfold outcome, getattr. by destruct (field k v name). Qed.

Lemma same_value (v : hval) : outcome (val v) h' = outcome (val v) h.
Proof. done. Qed.

Lemma same_user :
  outcome (attr (val request) "user") h' = outcome (attr (val request) "user") h.
Proof.
  apply same_bind; [preserve | done |].
  intros v [= <-]. by rewrite !outcome_getattr, Hreq.
Qed.

Lemma user_outcome (u : hval) :
  outcome (attr (val request) "user") h = Ok u → field h request "user" = Some u.
Proof.
  unfold attr, val. rewrite outcome_bind, outcome_ret, outcome_getattr by preserve.
  destruct (field h request "user"); congruence.
Qed.

Lemma same_method :
  outcome (attr (val request) "method") h' = outcome (attr (val request) "method") h.
Proof.
  apply same_bind; [preserve | done |].
  intros v [= <-]. by rewrite !outcome_getattr, Hreq.
Qed.

Lemma same_flag :
  outcome (attr (attr (val request) "user") "is_authenticated") h'
  = outcome (attr (attr (val request) "user") "is_authenticated") h.
Proof.
  apply same_bind; [unfold_store; preserve | apply same_user |].
  intros u Hu%user_outcome. destruct (Husr u Hu) as [Hf _].
  by rewrite !outcome_getattr, Hf.
Qed.

Lemma outcome_getattr_default (v : hval) (name : string) (dflt : hval) (k : heap) :
  outcome (getattr_default v name dflt) k = Ok (default dflt (field k v name)).
Proof. unfold outcome, getattr_default. by destruct (field k v name). Qed.

Lemma outcome_hasattr (v : hval) (name : string) (k : heap) :
  outcome (hasattr v name) k = Ok (HBool (bool_decide (is_Some (field k v name)))).
Proof. unfold outcome, hasattr. by destruct (field k v name). Qed.

Lemma same_role :
  outcome (call _get_role (attr (val request) "user")) h'
  = outcome (call _get_role (attr (val request) "user")) h.
Proof.
  apply same_bind; [unfold_store; preserve | apply same_user |].
  intros u Hu%user_outcome. destruct (Husr u Hu) as [Hf _].
  apply same_bind; [preserve | by rewrite !outcome_getattr_default, Hf |].
  intros p. rewrite outcome_getattr_default. intros [= Hp].
  destruct (truthy p) eqn:Htrue; [|done].
  apply same_bind; [preserve | done |]. intros ? [= <-].
  rewrite !outcome_getattr.
  destruct (field h u "profile") as [p'|] eqn:Hp'; cbn in Hp; subst.
  - by rewrite (Hpro u _ Hu Hp').
  - done.
Qed.

Lemma same_and (e1 e2 : M hval) :
  preserves e1 → outcome e1 h' = outcome e1 h → outcome e2 h' = outcome e2 h →
  outcome (and_ e1 e2) h' = outcome (and_ e1 e2) h.
Proof.
  intros Hp H1 H2. apply same_bind; [done | done |].
  intros x _. by destruct (truthy x).
Qed.

Lemma same_not (e : M hval) :
  preserves e → outcome e h' = outcome e h →
  outcome (not_ e) h' = outcome (not_ e) h.
Proof. intros Hp H1. by apply same_bind. Qed.

Lemma same_if (c t e : M hval) :
  preserves c → outcome c h' = outcome c h →
  outcome t h' = outcome t h → outcome e h' = outcome e h →
  outcome (if_ c t e) h' = outcome (if_ c t e) h.
Proof.
  intros Hp Hc Ht He. apply same_bind; [done | done |].
  intros x _. by destruct (truthy x).
Qed.

Lemma same_in (e : M hval) (t : list hval) :
  preserves e → outcome e h' = outcome e h →
  Forall (λ y, ∀ x, equal h' x y = equal h x y) t →
  outcome (in_ e t) h' = outcome (in_ e t) h.
Proof.
  intros Hp He Ht. apply same_bind; [done | done |].
  intros x _. unfold outcome, inspect. cbn. do 2 f_equal.
  induction Ht as [|y t Hy _ IH]; cbn; [done|]. by rewrite Hy, IH.
Qed.

Lemma same_eq_string (e : M hval) (s : string) :
  preserves e → outcome e h' = outcome e h →
  outcome (eq_ e (val (HStr s))) h' = outcome (eq_ e (val (HStr s))) h.
Proof.
  intros Hp He. apply same_bind; [done | done |].
  intros x _. unfold outcome, inspect, val, mbind, mret, M_bind, M_ret. cbn.
  by rewrite (equal_string h h').
Qed.

Lemma same_relation (rel : string) :
  rel ∈ ["claimant"; "holder"; "user"] →
  outcome (and_ (hasattr_ (val obj) rel)
                (eq_ (attr (val obj) rel) (attr (val request) "user"))) h'
  = outcome (and_ (hasattr_ (val obj) rel)
                  (eq_ (attr (val obj) rel) (attr (val request) "user"))) h.
Proof.
  intros Hin. apply same_and; [unfold_store; preserve | |].
  - apply same_bind; [preserve | done |]. intros ? [= <-].
    by rewrite !outcome_hasattr, Hobj.
  - apply same_bind; [unfold_store; preserve | |].
    + apply same_bind; [preserve | done |]. intros ? [= <-].
      by rewrite !outcome_getattr, Hobj.
    + intros x Hx. apply same_bind; [unfold_store; preserve | apply same_user |].
      intros u Hu%user_outcome. destruct (Husr u Hu) as [_ Hid].
      unfold outcome, inspect. cbn. do 2 f_equal.
      apply equal_agree; [|done]. apply (Hrel rel); [done|].
      revert Hx. unfold attr, val.
      rewrite outcome_bind, outcome_ret, outcome_getattr by preserve.
      destruct (field h obj rel); congruence.
Qed.

Lemma same_evaluate (d : decision) (view view' : hval) :
  outcome (evaluate d request view' obj) h' = outcome (evaluate d request view obj) h.
Proof.
  destruct d; cbn.
  all: repeat first
    [ exact same_flag | exact same_role | exact same_method
    | apply same_relation; rewrite !elem_of_cons; tauto
    | apply same_and; [unfold_store; preserve | |]
    | apply same_not; [unfold_store; preserve |]
    | apply same_if; [unfold_store; preserve | | |]
    | apply same_in;
      [unfold_store; preserve | | repeat constructor; intros; apply equal_string]
    | apply same_eq_string; [unfold_store; preserve |]
    | apply same_bind; [unfold_store; preserve | | intros ? _]
    | done ].
Qed.
End Frame.

(** ** From the footprint to what is read *)

Lemma agree_object (L : list Heap.loc) (h h' : Heap.heap) (v : Heap.hval) :
  Heap.agree L h h' → (∀ l, v = Heap.HRef l → l ∈ L) →
  (∀ n, Heap.field h' v n = Heap.field h v n) ∧ Heap.ident h' v = Heap.ident h v.
Proof.
  intros Hagree Hin. destruct v as [| | |l]; try done.
  unfold Heap.field, Heap.ident. by rewrite (Hagree l (Hin l eq_refl)).
Qed.

Lemma footprint_request (h : Heap.heap) (request obj : Heap.hval) (l : Heap.loc) :
  request = Heap.HRef l → l ∈ Heap.footprint h request obj.
Proof.
  intros ->. unfold Heap.footprint. cbn.
  repeat first [rewrite elem_of_app | rewrite elem_of_cons]; auto 10.
Qed.

Lemma footprint_user (h : Heap.heap) (request obj u : Heap.hval) (l : Heap.loc) :
  Heap.field h request "user" = Some u → u = Heap.HRef l →
  l ∈ Heap.footprint h request obj.
Proof.
  intros Hu ->. unfold Heap.footprint. rewrite Hu. cbn.
  repeat first [rewrite elem_of_app | rewrite elem_of_cons]; auto 10.
Qed.

Lemma footprint_profile (h : Heap.heap) (request obj u p : Heap.hval) (l : Heap.loc) :
  Heap.field h request "user" = Some u → Heap.field h u "profile" = Some p →
  p = Heap.HRef l → l ∈ Heap.footprint h request obj.
Proof.
  intros Hu Hp ->. unfold Heap.footprint. rewrite Hu. cbn. rewrite Hp. cbn.
  repeat first [rewrite elem_of_app | rewrite elem_of_cons]; auto 10.
Qed.

Lemma footprint_target (h : Heap.heap) (request obj : Heap.hval) (l : Heap.loc) :
  obj = Heap.HRef l → l ∈ Heap.footprint h request obj.
Proof.
  intros ->. unfold Heap.footprint. cbn.
  repeat first [rewrite elem_of_app | rewrite elem_of_cons]; auto 10.
Qed.

Lemma footprint_owner (h : Heap.heap) (request obj x : Heap.hval) (rel : string) (l : Heap.loc) :
  rel ∈ ["claimant"; "holder"; "user"] → Heap.field h obj rel = Some x →
  x = Heap.HRef l → l ∈ Heap.footprint h request obj.
Proof.
  intros Hrel Hx ->. unfold Heap.footprint.
  rewrite !elem_of_cons, elem_of_nil in Hrel.
  destruct Hrel as [-> | [-> | [-> | []]]]; rewrite Hx; cbn;
    repeat first [rewrite elem_of_app | rewrite elem_of_cons]; auto 10.
Qed.

(** ** Purity *)

(** The store model can tell a write from a read: an assignment to an
    attribute does not preserve the store. *)
Example setattr_writes :
  ¬ Heap.preserves (Heap.setattr (Heap.HRef 0) "role" (Heap.HStr "admin")).
Proof.
  intros Hp.
  specialize (Hp {[ 0 := {| Heap.obj_ident := 0; Heap.obj_attrs := ∅ |} ]}).
  apply (f_equal (λ k, k !! 0)) in Hp. by vm_compute in Hp.
Qed.

Example owner_in_store :
  Heap.evaluate isOwnerOrStaff (Heap.HRef 0) Heap.HNone (Heap.HRef 3) Heap.store0
  = (Ok (Heap.HBool true), Heap.store0).
Proof. reflexivity. Qed.

Example customer_write_in_store :
  Heap.evaluate isStaffOrReadOnly (Heap.HRef 0) Heap.HNone (Heap.HRef 3) Heap.store0
  = (Ok (Heap.HBool false), Heap.store0).
Proof. reflexivity. Qed.

(** C7.  Every named decision is deterministic and pure.  Started in
    any store, with any request, view and target, it leaves the store
    exactly as it found it; invoked again on the same inputs, in the
    store the first invocation left, it returns the same outcome; and its
    outcome is the same in every store that holds the same objects at
    the request, its user, that user's profile, the target and the
    owners the target names, whatever the view is and whatever else the
    store holds.  The role groups are constants of the code, not part of
    the store. *)
Theorem decisions_are_pure
    (d : decision) (request view obj : Heap.hval) (h : Heap.heap) :
  (Heap.evaluate d request view obj h).2 = h
  ∧ Heap.evaluate d request view obj (Heap.evaluate d request view obj h).2
    = Heap.evaluate d request view obj h
  ∧ ∀ h' view',
      Heap.agree (Heap.footprint h request obj) h h' →
      Heap.outcome (Heap.evaluate d request view' obj) h'
      = Heap.outcome (Heap.evaluate d request view obj) h.
Proof.
  split_and!.
  - apply preserves_evaluate.
  - apply preserves_again, preserves_evaluate.
  - intros h' view' Hagree. apply same_evaluate.
    + apply (agree_object _ _ _ _ Hagree). intros l. apply footprint_request.
    + intros u Hu. apply (agree_object _ _ _ _ Hagree). intros l.
      apply (footprint_user _ _ _ _ _ Hu).
    + intros u p Hu Hp. apply (agree_object _ _ _ _ Hagree). intros l.
      apply (footprint_profile _ _ _ _ _ _ Hu Hp).
    + apply (agree_object _ _ _ _ Hagree). intros l. apply footprint_target.
    + intros rel x Hrel Hx. apply (agree_object _ _ _ _ Hagree). intros l.
      apply (footprint_owner _ _ _ _ _ _ Hrel Hx).
Qed.

Lemma decisions_are_pure_witness :
  Heap.agree (Heap.footprint Heap.store0 (Heap.HRef 0) (Heap.HRef 3)) Heap.store0 Heap.store1
  ∧ Heap.outcome (Heap.evaluate isOwnerOrStaff (Heap.HRef 0) (Heap.HRef 9) (Heap.HRef 3))
      Heap.store1
    = Heap.outcome (Heap.evaluate isOwnerOrStaff (Heap.HRef 0) Heap.HNone (Heap.HRef 3))
        Heap.store0.
Proof.
  assert (Hagree : Heap.agree (Heap.footprint Heap.store0 (Heap.HRef 0) (Heap.HRef 3))
                     Heap.store0 Heap.store1).
  { assert (Hfp : Heap.footprint Heap.store0 (Heap.HRef 0) (Heap.HRef 3) = [0; 1; 2; 3; 4])
      by reflexivity.
    intros l Hl. rewrite Hfp, !elem_of_cons, elem_of_nil in Hl.
    destruct Hl as [-> | [-> | [-> | [-> | [-> | []]]]]]; reflexivity. }
  split; [exact Hagree|].
  exact (proj2 (proj2 (decisions_are_pure isOwnerOrStaff (Heap.HRef 0) Heap.HNone
                         (Heap.HRef 3) Heap.store0))
           Heap.store1 (Heap.HRef 9) Hagree).
Defined.

(** * The two transcriptions agree *)

Lemma reify_unfold (n : nat) (h : Heap.heap) (v : Heap.hval) :
  reify n h v
  = match v with
    | Heap.HNone => PNone
    | Heap.HBool b => PBool b
    | Heap.HStr s => PStr s
    | Heap.HRef l =>
        match h !! l with
        | Some o =>
            PObj (Heap.obj_ident o)
                 (match n with
                  | O => ∅
                  | S n' => reify n' h <$> Heap.obj_attrs o
                  end)
        | None => PNone
        end
    end.
Proof. by destruct n. Qed.

Lemma reify_field (n : nat) (h : Heap.heap) (v : Heap.hval) (name : string) :
  lookup_attr (reify (S n) h v) name = reify n h <$> Heap.field h v name.
Proof.
  destruct v as [| | |l]; try done. cbn.
  destruct (h !! l) as [o|]; [|done]. cbn. apply lookup_fmap.
Qed.

Lemma reify_truthy (n : nat) (h : Heap.heap) (v : Heap.hval) :
  allocated h v → truthy (reify n h v) = Heap.truthy v.
Proof.
  rewrite reify_unfold. destruct v as [| | |l]; try done. cbn. by intros [o ->].
Qed.

Lemma reify_equal (n m : nat) (h : Heap.heap) (x y : Heap.hval) :
  allocated h x → allocated h y →
  py_eq (reify n h x) (reify m h y) = Heap.equal h x y.
Proof.
  rewrite !reify_unfold.
  destruct x as [| | |l1], y as [| | |l2]; cbn; try done.
  - by intros _ [o ->].
  - by intros _ [o ->].
  - by intros _ [o ->].
  - by intros [o ->] _.
  - by intros [o ->] _.
  - by intros [o ->] _.
  - by intros [o1 ->] [o2 ->].
Qed.

Lemma field_allocated (h : Heap.heap) (v x : Heap.hval) (name : string) :
  closed h → Heap.field h v name = Some x → allocated h x.
Proof.
  intros Hclosed. destruct v as [| | |l]; try done. cbn.
  destruct (h !! l) as [o|] eqn:Ho; [|done]. by apply (Hclosed l o name x).
Qed.

Section Simulation.
Variable h : Heap.heap.
Hypothesis Hclosed : closed h.

Lemma simulates_val (n : nat) (v : Heap.hval) :
  allocated h v → simulates h n (Heap.val v) (val (reify n h v)).
Proof. by intros Hv. Qed.

Lemma simulates_bind (n n' : nat) (m : Heap.M Heap.hval) (p : result pyval)
    (f : Heap.hval → Heap.M Heap.hval) (g : pyval → result pyval) :
  Heap.preserves m → simulates h n m p →
  (∀ v, allocated h v → simulates h n' (f v) (g (reify n h v))) →
  simulates h n' (m ≫= f) (p ≫= g).
Proof.
  intros Hp Hm Hf. unfold simulates in *. rewrite outcome_bind by done.
  destruct (Heap.outcome m h) as [v|e].
  - destruct Hm as [Hv ->]. apply (Hf v Hv).
  - by subst.
Qed.

Lemma simulates_getattr (n : nat) (v : Heap.hval) (name : string) :
  simulates h n (Heap.getattr v name) (getattr (reify (S n) h v) name).
Proof.
  unfold simulates, getattr. rewrite outcome_getattr, reify_field.
  destruct (Heap.field h v name) as [x|] eqn:Hx; [|done].
  split; [by apply (field_allocated h v x name) | done].
Qed.

Lemma simulates_attr (n : nat) (e : Heap.M Heap.hval) (p : result pyval) (name : string) :
  Heap.preserves e → simulates h (S n) e p →
  simulates h n (Heap.attr e name) (attr p name).
Proof.
  intros Hp He. apply (simulates_bind (S n)); [done | done |].
  intros v _. apply simulates_getattr.
Qed.

Lemma simulates_bool (n : nat) (b : bool) :
  simulates h n (mret (Heap.HBool b)) (Ok (PBool b)).
Proof. unfold simulates. cbn. by rewrite reify_unfold. Qed.

Lemma simulates_and (n : nat) (e1 e2 : Heap.M Heap.hval) (p1 p2 : result pyval) :
  Heap.preserves e1 → simulates h n e1 p1 → simulates h n e2 p2 →
  simulates h n (Heap.and_ e1 e2) (and_ p1 p2).
Proof.
  intros Hp H1 H2. apply (simulates_bind n); [done | done |].
  intros v Hv. rewrite (reify_truthy n h v Hv).
  destruct (Heap.truthy v); [done | by apply simulates_val].
Qed.

Lemma simulates_not (n n' : nat) (e : Heap.M Heap.hval) (p : result pyval) :
  Heap.preserves e → simulates h n e p →
  simulates h n' (Heap.not_ e) (not_ p).
Proof.
  intros Hp He. apply (simulates_bind n); [done | done |].
  intros v Hv. rewrite (reify_truthy n h v Hv). apply simulates_bool.
Qed.

Lemma simulates_if (n n' : nat) (c t e : Heap.M Heap.hval) (pc pt pe : result pyval) :
  Heap.preserves c → simulates h n c pc →
  simulates h n' t pt → simulates h n' e pe →
  simulates h n' (Heap.if_ c t e) (if_ pc pt pe).
Proof.
  intros Hp Hc Ht He. apply (simulates_bind n); [done | done |].
  intros v Hv. rewrite (reify_truthy n h v Hv). by destruct (Heap.truthy v).
Qed.

Lemma simulates_eq (n1 n2 n' : nat) (e1 e2 : Heap.M Heap.hval) (p1 p2 : result pyval) :
  Heap.preserves e1 → Heap.preserves e2 →
  simulates h n1 e1 p1 → simulates h n2 e2 p2 →
  simulates h n' (Heap.eq_ e1 e2) (eq_ p1 p2).
Proof.
  intros Hp1 Hp2 H1 H2. apply (simulates_bind n1); [done | done |].
  intros x Hx. apply (simulates_bind n2); [done | done |].
  intros y Hy. unfold simulates, Heap.outcome, Heap.inspect. cbn.
  split; [done|]. by rewrite (reify_unfold n'), reify_equal.
Qed.

Lemma simulates_in (n n' : nat) (e : Heap.M Heap.hval) (p : result pyval)
    (t : list Heap.hval) (t' : list pyval) :
  Heap.preserves e → simulates h n e p →
  Forall2 (λ y y', ∃ s, y = Heap.HStr s ∧ y' = PStr s) t t' →
  simulates h n' (Heap.in_ e t) (in_ p t').
Proof.
  intros Hp He Ht. apply (simulates_bind n); [done | done |].
  intros x Hx. unfold simulates, Heap.outcome, Heap.inspect. cbn.
  split; [done|]. rewrite (reify_unfold n'). do 2 f_equal.
  induction Ht as [|y y' t t' (s & -> & ->) _ IH]; cbn; [done|].
  fold (py_in (reify n h x) t'). rewrite IH.
  by rewrite <- (reify_equal n 0 h x (Heap.HStr s)), (reify_unfold 0 h (Heap.HStr s)).
Qed.

Lemma simulates_hasattr (n n' : nat) (e : Heap.M Heap.hval) (p : result pyval) (name : string) :
  Heap.preserves e → simulates h (S n) e p →
  simulates h n' (Heap.hasattr_ e name) (hasattr_ p name).
Proof.
  intros Hp He. apply (simulates_bind (S n)); [done | done |].
  intros v Hv. unfold simulates, hasattr. rewrite outcome_hasattr, reify_field.
  split; [done|]. rewrite (reify_unfold n'). by destruct (Heap.field h v name).
Qed.

Lemma simulates_get_role (n : nat) (u : Heap.hval) :
  simulates h n (Heap._get_role u) (_get_role (reify (S (S n)) h u)).
Proof.
  unfold Heap._get_role, _get_role, getattr_default.
  rewrite reify_field. unfold simulates.
  rewrite outcome_bind, outcome_getattr_default by apply preserves_getattr_default.
  destruct (Heap.field h u "profile") as [p|] eqn:Hp; cbn [default from_option id fmap option_fmap option_map].
  - assert (Hal : allocated h p) by (by apply (field_allocated h u p "profile")).
    rewrite (reify_truthy (S n) h p Hal). destruct (Heap.truthy p).
    + apply simulates_attr; [apply preserves_ret | by apply simulates_val].
    + unfold Heap.val, val. cbn. by rewrite reify_unfold.
  - cbn. by rewrite reify_unfold.
Qed.

Lemma simulates_call (n : nat) (e : Heap.M Heap.hval) (p : result pyval) :
  Heap.preserves e → simulates h (S (S n)) e p →
  simulates h n (Heap.call Heap._get_role e) (call _get_role p).
Proof.
  intros Hp He. apply (simulates_bind (S (S n))); [done | done |].
  intros u _. apply simulates_get_role.
Qed.

(** On a closed store, a decision run over the store ends as the
    decision run over the values the store holds for its arguments. *)
Lemma store_run_is_value_run (d : decision) (request view obj : Heap.hval) :
  allocated h request → allocated h obj →
  simulates h 1 (Heap.evaluate d request view obj)
    (evaluate d (reify 3 h request) (reify 3 h view) (reify 3 h obj)).
Proof.
  intros Hrequest Hobj.
  assert (Hroles : ∀ l, Forall2 (λ y y', ∃ s, y = Heap.HStr s ∧ y' = PStr s)
                          (Heap.HStr <$> l) (PStr <$> l)).
  { intros l. apply Forall2_fmap, Forall_Forall2_diag, Forall_forall. eauto. }
  destruct d;
    cbv [Heap.evaluate evaluate Heap.permission_class permission_class
         Heap.has_permission Heap.has_object_permission
         has_permission has_object_permission
         Heap.IsAdmin Heap.IsManagement Heap.IsStaff Heap.IsStaffOrReadOnly
         Heap.IsOwnerOrStaff Heap.CanProcessClaims Heap.CanAssignClaims
         Heap.CanManageFraudAlerts Heap.CanViewAnalytics Heap.CanManageUsers
         IsAdmin IsManagement IsStaff IsStaffOrReadOnly IsOwnerOrStaff
         CanProcessClaims CanAssignClaims CanManageFraudAlerts CanViewAnalytics
         CanManageUsers Heap.True_ Heap.False_ True_ False_].
  all: repeat first
    [ apply simulates_bool
    | apply simulates_val; assumption
    | by apply (simulates_val 0)
    | eapply simulates_attr; [unfold_store; preserve |]
    | eapply simulates_call; [unfold_store; preserve |]
    | eapply simulates_and; [unfold_store; preserve | |]
    | eapply simulates_not; [unfold_store; preserve |]
    | eapply simulates_if; [unfold_store; preserve | | |]
    | eapply simulates_eq; [unfold_store; preserve | unfold_store; preserve | |]
    | eapply simulates_hasattr; [unfold_store; preserve |]
    | eapply simulates_in;
      [unfold_store; preserve | | first
         [ exact (Hroles ["admin"; "manager"; "adjuster"; "reviewer"; "agent"])
         | exact (Hroles ["admin"; "manager"])
         | exact (Hroles ["admin"; "manager"; "adjuster"])
         | exact (Hroles ["admin"; "manager"; "reviewer"])
         | exact (Hroles ["admin"; "manager"; "adjuster"; "reviewer"])
         | exact (Hroles ["GET"; "HEAD"; "OPTIONS"]) ]]
    | eapply simulates_bind; [unfold_store; preserve | | intros ? ?] ].
  Unshelve. all: exact 0.
Qed.
End Simulation.
